(** * NPI Finder PRO (app2.py): the state/region pipeline and its aggregates

    A shallow embedding of the data path of [app2.py]: the two static
    reference dictionaries, the selectors (lines 105-113), the Filter
    Stage (lines 118-129), the exports (lines 134-142), the overview
    (lines 166-175), [standardize_state_codes] (lines 178-206) and the
    aggregates computed from [processed_df] (lines 215-479).

    Conventions.
    - A Python [str] is a [string]; one [ascii] stands for one character.
    - A Python [dict] is an association list in insertion order ([dict]);
      [region_mapping.items()] is iterated in that order by [get_region].
    - A cell of the [State] column is a [text]: a string, or [NaN] where
      the spreadsheet cell is blank. The [Speciality] and [Region] columns
      hold strings.
    - A pandas [DataFrame] keeps the uploaded columns row by row
      ([records]) and the columns the program assigns by name ([added]).
    - A Python exception is a value of [exn]; code that can raise returns
      a [result].
    - A Python [float] is a binary64 [float] of the kernel.
    - [sort_values] is a parameter: pandas' default sort orders the rows
      by the column and promises nothing on rows with equal values. *)

From Stdlib Require Import String Ascii List Bool Arith ZArith Lia.
From Stdlib Require Import Permutation Sorted RelationClasses.
From Stdlib Require Import OrdersEx.
From Stdlib Require Import PrimFloat FloatOps SpecFloat Uint63 DecimalString.
Import ListNotations.
#[local] Set Warnings "-inexact-float".

Local Open Scope string_scope.
Local Open Scope list_scope.

(** ** Python dictionaries *)

Definition dict (V : Type) : Type := list (string * V).

Fixpoint dict_get {V : Type} (d : dict V) (k : string) : option V :=
  match d with
  | [] => None
  | (k', v) :: d' => if String.eqb k' k then Some v else dict_get d' k
  end.

(** [d.get(k, default)] *)
Definition dict_getd {V : Type} (d : dict V) (k : string) (default : V) : V :=
  match dict_get d k with
  | Some v => v
  | None => default
  end.

(** [d[k] = v]: an existing key keeps its position, a new key goes last. *)
Fixpoint dict_set {V : Type} (d : dict V) (k : string) (v : V) : dict V :=
  match d with
  | [] => [(k, v)]
  | (k', v') :: d' =>
      if String.eqb k' k then (k', v) :: d' else (k', v') :: dict_set d' k v
  end.

(** A dictionary display or comprehension: the items are stored left to
    right, a repeated key keeping its last value. *)
Definition dict_of_items {V : Type} (items : list (string * V)) : dict V :=
  fold_left (fun d kv => dict_set d (fst kv) (snd kv)) items [].

Definition keys {V : Type} (d : dict V) : list string := map fst d.

(** [x in l] for a list of strings *)
Definition mem (x : string) (l : list string) : bool :=
  existsb (String.eqb x) l.

(** ** Cells of a text column *)

(** A string, or the missing value that pandas puts where the
    spreadsheet cell is blank. *)
Inductive text : Type :=
| Text (s : string)
| NaN.

Coercion Text : string >-> text.

Definition is_text (x : text) : bool :=
  match x with
  | Text _ => true
  | NaN => false
  end.

(** [x in l] for a cell: the missing value equals no string. *)
Definition cell_in (x : text) (l : list string) : bool :=
  match x with
  | Text s => mem s l
  | NaN => false
  end.

(** [d.get(x, x)]: the missing value is no key and is its own default. *)
Definition get_or_self (d : dict string) (x : text) : text :=
  match x with
  | Text s => Text (dict_getd d s s)
  | NaN => NaN
  end.

(** The strings of a column, in order ([dropna]). *)
Fixpoint texts (l : list text) : list string :=
  match l with
  | [] => []
  | Text s :: t => s :: texts t
  | NaN :: t => texts t
  end.

(** ** Reference tables (lines 60-90) *)

Definition region_mapping : dict (list string) :=
  dict_of_items
    [ ("Northeast", ["ME"; "NH"; "VT"; "MA"; "RI"; "CT"; "NY"; "NJ"; "PA"]);
      ("Midwest", ["OH"; "MI"; "IN"; "IL"; "WI"; "MN"; "IA"; "MO"; "ND"; "SD";
                   "NE"; "KS"]);
      ("South", ["DE"; "MD"; "DC"; "VA"; "WV"; "NC"; "SC"; "GA"; "FL"; "KY";
                 "TN"; "AL"; "MS"; "AR"; "LA"; "OK"; "TX"]);
      ("West", ["MT"; "ID"; "WY"; "CO"; "NM"; "AZ"; "UT"; "NV"; "WA"; "OR";
                "CA"; "AK"; "HI"]) ].

Definition state_code_to_name : dict string :=
  dict_of_items
    [ ("AL", "Alabama"); ("AK", "Alaska"); ("AZ", "Arizona"); ("AR", "Arkansas");
      ("CA", "California"); ("CO", "Colorado"); ("CT", "Connecticut");
      ("DE", "Delaware"); ("FL", "Florida"); ("GA", "Georgia");
      ("HI", "Hawaii"); ("ID", "Idaho"); ("IL", "Illinois");
      ("IN", "Indiana"); ("IA", "Iowa"); ("KS", "Kansas");
      ("KY", "Kentucky"); ("LA", "Louisiana"); ("ME", "Maine");
      ("MD", "Maryland"); ("MA", "Massachusetts"); ("MI", "Michigan");
      ("MN", "Minnesota"); ("MS", "Mississippi"); ("MO", "Missouri");
      ("MT", "Montana"); ("NE", "Nebraska"); ("NV", "Nevada");
      ("NH", "New Hampshire"); ("NJ", "New Jersey"); ("_NM", "New Mexico");
      ("NY", "New York"); ("NC", "North Carolina"); ("ND", "North Dakota");
      ("OH", "Ohio"); ("OK", "Oklahoma"); ("OR", "Oregon");
      ("PA", "Pennsylvania"); ("RI", "Rhode Island"); ("SC", "South Carolina");
      ("SD", "South Dakota"); ("TN", "Tennessee"); ("TX", "Texas");
      ("UT", "Utah"); ("VT", "Vermont"); ("VA", "Virginia");
      ("WA", "Washington"); ("WV", "West Virginia"); ("WI", "Wisconsin");
      ("WY", "Wyoming"); ("DC", "District of Columbia") ].

(** [{v: k for k, v in state_code_to_name.items()}] *)
Definition state_name_to_code : dict string :=
  dict_of_items (map (fun kv => (snd kv, fst kv)) state_code_to_name).

(** [get_region] (lines 198-202 and again 221-225): the first region, in
    the order of [region_mapping.items()], whose list holds the code. *)
Fixpoint get_region_in (items : list (string * list string))
    (state_code : text) : string :=
  match items with
  | [] => "Unknown"
  | (r, states) :: rest =>
      if cell_in state_code states then r else get_region_in rest state_code
  end.

Definition get_region (state_code : text) : string :=
  get_region_in region_mapping state_code.

(** The regions whose member list holds a code. *)
Definition regions_of (state_code : string) : list string :=
  map fst (filter (fun rs => mem state_code (snd rs)) region_mapping).

(** Two member lists share no code. *)
Definition disjointb (l1 l2 : list string) : bool :=
  forallb (fun x => negb (mem x l2)) l1.

(** ** Exceptions *)

Inductive exn : Type :=
| KeyError (key : string)
| IndexError
| TypeError.

Definition result (A : Type) : Type := (exn + A)%type.

Definition Ok {A : Type} (a : A) : result A := inr a.
Definition Raise {A : Type} (e : exn) : result A := inl e.

Definition bind {A B : Type} (r : result A) (k : A -> result B) : result B :=
  match r with
  | inl e => inl e
  | inr a => k a
  end.

Notation "x <- r ;; k" := (bind r (fun x => k))
  (at level 61, r at next level, right associativity).

(** [len(x)] of a cell: the missing value is a float and has no length. *)
Definition py_len (x : text) : result nat :=
  match x with
  | Text s => Ok (String.length s)
  | NaN => Raise TypeError
  end.

(** ** Tables *)

(** One uploaded row, with the columns of the expected schema (lines
    38-43 and [sample_data], lines 49-55). *)
Record Provider : Type := mkProvider {
  NPI : string;
  Speciality : string;
  State : text;
  Region : string;
  UsageTime : float
}.

(** A [DataFrame]: the uploaded columns row by row, and the columns the
    program assigns, each a list of cells aligned with the rows, in the
    order of their creation. *)
Record DataFrame : Type := mkDataFrame {
  records : list Provider;
  added : dict (list text)
}.

(** [pd.read_excel]: the uploaded table has the schema's columns only. *)
Definition frame (l : list Provider) : DataFrame := mkDataFrame l [].

Definition len (df : DataFrame) : nat := List.length (records df).

Definition base_columns : list string :=
  ["NPI"; "Speciality"; "State"; "Region"; "Usage Time (mins)"].

(** [df.columns] *)
Definition columns (df : DataFrame) : list string :=
  base_columns ++ keys (added df).

(** [df[c]] for a text column; a name that is no column raises
    [KeyError]. The numeric column is read by [usage_time]. *)
Definition getitem (df : DataFrame) (c : string) : result (list text) :=
  if String.eqb c "NPI" then Ok (map (fun p => Text (NPI p)) (records df))
  else if String.eqb c "Speciality"
  then Ok (map (fun p => Text (Speciality p)) (records df))
  else if String.eqb c "State" then Ok (map State (records df))
  else if String.eqb c "Region"
  then Ok (map (fun p => Text (Region p)) (records df))
  else match dict_get (added df) c with
       | Some s => Ok s
       | None => Raise (KeyError c)
       end.

(** [df['Usage Time (mins)']] *)
Definition usage_time (df : DataFrame) : list float :=
  map UsageTime (records df).

(** [df[c] = series] *)
Definition setitem (df : DataFrame) (c : string) (series : list text)
    : DataFrame :=
  mkDataFrame (records df) (dict_set (added df) c series).

(** Boolean indexing: the positions where the mask is [True]. *)
Fixpoint select {A : Type} (mask : list bool) (l : list A) : list A :=
  match mask, l with
  | b :: mask', x :: l' => if b then x :: select mask' l' else select mask' l'
  | _, _ => []
  end.

(** [df[mask]] *)
Definition loc (df : DataFrame) (mask : list bool) : DataFrame :=
  mkDataFrame (select mask (records df))
              (map (fun kv => (fst kv, select mask (snd kv))) (added df)).

(** [series.isin(values)] *)
Definition isin (series : list text) (values : list string) : list bool :=
  map (fun x => cell_in x values) series.

(** [mask1 | mask2] *)
Fixpoint mask_or (m1 m2 : list bool) : list bool :=
  match m1, m2 with
  | a :: m1', b :: m2' => (a || b) :: mask_or m1' m2'
  | _, _ => []
  end.

(** [series.iloc[0]] *)
Definition iloc0 (series : list text) : result text :=
  match series with
  | [] => Raise IndexError
  | x :: _ => Ok x
  end.

(** ** Grouping *)

Section GroupBy.
Context {K : Type} (cmp : K -> K -> comparison).

Definition key_eqb (a b : K) : bool :=
  match cmp a b with Eq => true | _ => false end.

Definition key_lt (a b : K) : Prop := cmp a b = Lt.

Fixpoint insert_key (k : K) (l : list K) : list K :=
  match l with
  | [] => [k]
  | h :: t =>
      match cmp k h with
      | Lt => k :: l
      | Eq => l
      | Gt => h :: insert_key k t
      end
  end.

(** The group keys of [groupby] (with its default [sort=True]): the
    distinct keys in ascending order. *)
Definition group_keys (l : list K) : list K := fold_right insert_key [] l.

Definition count_key (k : K) (l : list K) : nat :=
  List.length (filter (key_eqb k) l).

(** [groupby(keys).size()] *)
Definition groupby_size (l : list K) : list (K * nat) :=
  map (fun k => (k, count_key k l)) (group_keys l).

(** The values of one group, in row order. *)
Definition group_values {V : Type} (k : K) (l : list (K * V)) : list V :=
  map snd (filter (fun kv => key_eqb k (fst kv)) l).

(** [groupby(keys)[col].agg(f)] *)
Definition groupby_agg {V W : Type} (f : list V -> W) (l : list (K * V))
    : list (K * W) :=
  map (fun k => (k, f (group_values k l))) (group_keys (map fst l)).
End GroupBy.

(** Python's order on [str] and on pairs of [str]. *)
Definition str_cmp : string -> string -> comparison := String_as_OT.compare.

Definition pair_cmp (a b : string * string) : comparison :=
  match str_cmp (fst a) (fst b) with
  | Eq => str_cmp (snd a) (snd b)
  | c => c
  end.

(** The rows of a keyed column whose key is not missing: [groupby]
    leaves the others out (its default [dropna=True]). *)
Fixpoint keyed {V : Type} (l : list (text * V)) : list (string * V) :=
  match l with
  | [] => []
  | (Text s, v) :: t => (s, v) :: keyed t
  | (NaN, _) :: t => keyed t
  end.

(** The same for two key columns. *)
Fixpoint keyed2 (l : list (text * text)) : list (string * string) :=
  match l with
  | [] => []
  | (Text a, Text b) :: t => (a, b) :: keyed2 t
  | _ :: t => keyed2 t
  end.

(** [series.unique()]: the distinct values in order of first appearance. *)
Fixpoint unique (l : list string) : list string :=
  match l with
  | [] => []
  | x :: t => x :: filter (fun y => negb (String.eqb y x)) (unique t)
  end.

(** [.index.tolist()] *)
Definition index_tolist {V : Type} (s : list (string * V)) : list string :=
  map fst s.

(** One way to sort by a column in descending order: an insertion sort.
    It serves to run the definitions on examples. *)
Fixpoint insert_desc {A : Type} (by_ : A -> nat) (x : A) (l : list A)
    : list A :=
  match l with
  | [] => [x]
  | y :: t =>
      if Nat.ltb (by_ x) (by_ y) then y :: insert_desc by_ x t else x :: l
  end.

Definition insertion_sort_desc (A : Type) (by_ : A -> nat) (l : list A)
    : list A :=
  fold_right (insert_desc by_) [] l.

(** What [sort_values(by, ascending=False)] promises: the same rows,
    ordered by the column from the largest value down. The order of rows
    with equal values is left open (pandas' default [kind='quicksort']
    is not stable). *)
Definition sorts_descending
    (sort : forall A : Type, (A -> nat) -> list A -> list A) : Prop :=
  forall (A : Type) (by_ : A -> nat) (l : list A),
    Permutation (sort A by_ l) l
    /\ StronglySorted (fun a b => by_ b <= by_ a) (sort A by_ l).

(** ** Floating-point statistics *)

Definition float_of_nat (n : nat) : float :=
  of_uint63 (Uint63.of_Z (Z.of_nat n)).

(** [skipna=True]: the statistics ignore NaN. *)
Definition dropna (l : list float) : list float :=
  filter (fun x => negb (is_nan x)) l.

(** The values with 0 in the place of NaN, as pandas sums them. *)
Definition fillna0 (l : list float) : list float :=
  map (fun x => if is_nan x then 0%float else x) l.

(** *** numpy's sum of an array: pairwise summation *)

(** Fewer than 8 values are added from left to right. *)
Definition sum_left (a : list float) : float :=
  fold_left PrimFloat.add a 0%float.

(** [r[j] += a[i + j]] for the eight accumulators. *)
Fixpoint add_each (r a : list float) : list float :=
  match r, a with
  | x :: r', y :: a' => (x + y)%float :: add_each r' a'
  | _, _ => r
  end.

(** The loop over the blocks of eight values after the first. *)
Fixpoint add_blocks (k : nat) (r a : list float) : list float * list float :=
  match k with
  | O => (r, a)
  | S k' => add_blocks k' (add_each r (firstn 8 a)) (skipn 8 a)
  end.

Definition add_accumulators (r : list float) : float :=
  match r with
  | [r0; r1; r2; r3; r4; r5; r6; r7] =>
      (((r0 + r1) + (r2 + r3)) + ((r4 + r5) + (r6 + r7)))%float
  | _ => sum_left r
  end.

(** From 8 to 128 values: eight accumulators take every eighth value,
    are added in pairs, and the values after the last full block of
    eight are added one by one. *)
Definition block_sum (a : list float) : float :=
  let n := List.length a in
  let (r, rest) := add_blocks (n / 8 - 1) (firstn 8 a) (skipn 8 a) in
  fold_left PrimFloat.add rest (add_accumulators r).

(** More than 128 values are split near the middle, at a multiple of
    eight, and the sums of the halves are added. [fuel] bounds the depth
    of the splitting; the length of the array is always enough
    ([pairwise_sum_fuel]). *)
Fixpoint pairwise_sum (fuel : nat) (a : list float) : float :=
  let n := List.length a in
  if Nat.ltb n 8 then sum_left a
  else if Nat.leb n 128 then block_sum a
  else match fuel with
       | O => block_sum a
       | S fuel' =>
           let n2 := n / 2 - (n / 2) mod 8 in
           (pairwise_sum fuel' (firstn n2 a)
            + pairwise_sum fuel' (skipn n2 a))%float
       end.

(** [values.sum()] *)
Definition fsum (a : list float) : float := pairwise_sum (List.length a) a.

(** [series.mean()]: the sum of the values, NaN counting as 0, over the
    number of values that are not NaN. *)
Definition mean (l : list float) : float :=
  let count := List.length (dropna l) in
  if Nat.ltb 0 count then (fsum (fillna0 l) / float_of_nat count)%float
  else nan.

(** [series.min()] and [series.max()]; NaN on no value. *)
Definition fmin (l : list float) : float :=
  match dropna l with
  | [] => nan
  | x :: t => fold_left (fun a y => if PrimFloat.ltb y a then y else a) t x
  end.

Definition fmax (l : list float) : float :=
  match dropna l with
  | [] => nan
  | x :: t => fold_left (fun a y => if PrimFloat.ltb a y then y else a) t x
  end.

Fixpoint finsert (x : float) (l : list float) : list float :=
  match l with
  | [] => [x]
  | y :: t => if PrimFloat.ltb y x then y :: finsert x t else x :: l
  end.

Definition fsort (l : list float) : list float := fold_right finsert [] l.

(** [series.median()]: the middle value, or the mean of the two middle
    values. *)
Definition median (l : list float) : float :=
  let v := fsort (dropna l) in
  let n := List.length v in
  match n with
  | O => nan
  | _ =>
      if Nat.even n then
        ((nth (n / 2 - 1) v nan + nth (n / 2) v nan) / 2)%float
      else nth (n / 2) v nan
  end.

(** The squared deviations from [avg], 0 in the place of NaN. *)
Definition squared_deviations (avg : float) (l : list float) : list float :=
  map (fun x => if is_nan x then 0%float
                else ((avg - x) * (avg - x))%float) l.

(** [nanvar] with [ddof] delta degrees of freedom: the sum of the
    squared deviations from the mean over [count - ddof]; NaN when
    [count <= ddof]. *)
Definition variance (ddof : nat) (l : list float) : float :=
  let count := List.length (dropna l) in
  if Nat.leb count ddof then nan
  else
    let avg := (fsum (fillna0 l) / float_of_nat count)%float in
    (fsum (squared_deviations avg l) / float_of_nat (count - ddof))%float.

(** [series.std()], with pandas' default [ddof=1]. *)
Definition std (l : list float) : float := PrimFloat.sqrt (variance 1 l).


(** The mean of one group of [groupby(...).mean()]: pandas adds the
    group's values with Kahan's compensated summation. *)
Definition kahan_step (acc : float * float) (val : float) : float * float :=
  let (sumx, compensation) := acc in
  let y := (val - compensation)%float in
  let t := (sumx + y)%float in
  let c := (t - sumx - y)%float in
  (t, if is_nan c then 0%float else c).

Definition group_mean (l : list float) : float :=
  let v := dropna l in
  match v with
  | [] => nan
  | _ => (fst (fold_left kahan_step v (0%float, 0%float))
          / float_of_nat (List.length v))%float
  end.

(** Rounding to the nearest integer, ties to even ([rint]). Below 2^52
    adding and subtracting 2^52 rounds exactly; from 2^52 on every float
    is an integer. *)
Definition two52 : float := 4503599627370496%float.

Definition rint (x : float) : float :=
  if PrimFloat.ltb (abs x) two52 then
    if PrimFloat.ltb x 0 then (- ((- x + two52) - two52))%float
    else ((x + two52) - two52)%float
  else x.

(** [.round(1)]: numpy scales by ten, rounds to an integer and scales
    back. *)
Definition round1 (x : float) : float := (rint (x * 10) / 10)%float.

(** *** Fixed-point formatting, [f"{x:.2f}"] *)

Definition round_half_even (num den : Z) : Z :=
  let q := (num / den)%Z in
  let r := (num mod den)%Z in
  match (2 * r ?= den)%Z with
  | Lt => q
  | Gt => (q + 1)%Z
  | Eq => if Z.even q then q else (q + 1)%Z
  end.

(** [m * 2^e * 10^d], rounded to an integer. *)
Definition scaled (d : nat) (m : positive) (e : Z) : Z :=
  if (0 <=? e)%Z then (Zpos m * 2 ^ e * 10 ^ Z.of_nat d)%Z
  else round_half_even (Zpos m * 10 ^ Z.of_nat d) (2 ^ (- e)).

Definition digits (n : Z) : string :=
  DecimalString.NilZero.string_of_uint (N.to_uint (Z.to_N n)).

Fixpoint zeros (n : nat) : string :=
  match n with
  | O => ""
  | S k => "0" ++ zeros k
  end.

Definition fixed (d : nat) (n : Z) : string :=
  let p := (10 ^ Z.of_nat d)%Z in
  let frac := digits (n mod p) in
  digits (n / p)
  ++ match d with
     | O => ""
     | _ => "." ++ zeros (d - String.length frac) ++ frac
     end.

(** [format(x, ".<d>f")]: the exact value of the float, rounded to [d]
    decimals, ties to even. *)
Definition format_f (d : nat) (x : float) : string :=
  match Prim2SF x with
  | S754_nan => "nan"
  | S754_infinity s => if s then "-inf" else "inf"
  | S754_zero s => (if s then "-" else "") ++ fixed d 0
  | S754_finite s m e => (if s then "-" else "") ++ fixed d (scaled d m e)
  end.

(** ** Filter Stage (lines 115-129) *)

(** Truth value of a [str]: the empty string is false. *)
Definition truthy (s : string) : bool := negb (String.eqb s "").

(** Lines 115-116: the sentinel of the region selector stands for no
    region. *)
Definition choose_region (choice : string) : option string :=
  if String.eqb choice "All Regions" then None else Some choice.

(** [if selected_region:] *)
Definition region_given (selected_region : option string) : bool :=
  match selected_region with
  | Some r => truthy r
  | None => false
  end.

(** Lines 119-129; [None] is [st.stop()] after the warning. *)
Definition filter_stage (df : DataFrame) (selected_specialty : string)
    (selected_region : option string) : option DataFrame :=
  if truthy selected_specialty then
    let filtered_df :=
      loc df (map (fun p => String.eqb (Speciality p) selected_specialty)
                  (records df)) in
    match selected_region with
    | Some r =>
        if truthy r then
          Some (loc filtered_df
                    (map (fun p => String.eqb (Region p) r)
                         (records filtered_df)))
        else Some filtered_df
    | None => Some filtered_df
    end
  else None.

(** ** Exports (lines 134-142) *)

Inductive cell : Type :=
| Str (s : string)
| Num (x : float).

(** A cell of a text column as it is written out. *)
Definition cell_of (x : text) : cell :=
  match x with
  | Text s => Str s
  | NaN => Num nan
  end.

(** What [to_csv(index=False)] and [to_excel(index=False)] write: the
    header row and the rows of cells; the encoding is the library's. *)
Record Table : Type := mkTable {
  header : list string;
  body : list (list cell)
}.

Definition row_cells (df : DataFrame) (i : nat) (p : Provider) : list cell :=
  [Str (NPI p); Str (Speciality p); cell_of (State p); Str (Region p);
   Num (UsageTime p)]
  ++ map (fun kv => cell_of (nth i (snd kv) NaN)) (added df).

Definition to_table (df : DataFrame) : Table :=
  mkTable (columns df)
          (map (fun ip => row_cells df (fst ip) (snd ip))
               (combine (seq 0 (len df)) (records df))).

Definition csv_data (filtered_df : DataFrame) : Table := to_table filtered_df.

Definition excel_data (filtered_df : DataFrame) : Table :=
  to_table filtered_df.

(** ** Selectors (lines 105-113) *)

(** [sorted(l)] on strings: an insertion into the sorted tail, equal
    values staying in their order. *)
Fixpoint insert_sorted (x : string) (l : list string) : list string :=
  match l with
  | [] => [x]
  | y :: t =>
      match str_cmp x y with
      | Gt => y :: insert_sorted x t
      | _ => x :: l
      end
  end.

Definition sorted (l : list string) : list string :=
  fold_right insert_sorted [] l.

(** Line 105: the options of the specialty selector. *)
Definition specialties (df : DataFrame) : list string :=
  sorted (unique (map Speciality (records df))).

(** Line 106 *)
Definition regions (df : DataFrame) : list string :=
  sorted (unique (map Region (records df))).

(** Line 113: the options of the region selector. *)
Definition region_options (df : DataFrame) : list string :=
  "All Regions" :: regions df.

(** ** Dataset overview (lines 166-175) *)

Record Overview : Type := mkOverview {
  total_providers : nat;
  total_states : nat;
  avg_usage : string;
  overview_sample : list Provider
}.

(** [nunique] counts the distinct values that are not missing. *)
Definition dataset_overview (filtered_df : DataFrame) : Overview :=
  mkOverview (len filtered_df)
             (List.length (unique (texts (map State (records filtered_df)))))
             (format_f 2 (mean (usage_time filtered_df)))
             (firstn 10 (records filtered_df)).

(** ** Rows of the aggregates *)

Record StateCount : Type := mkStateCount {
  sc_StateCode : string;
  sc_NPI_Count : nat;
  sc_name : string;
  sc_Region : string
}.

Record RegionCount : Type := mkRegionCount {
  rc_MappedRegion : string;
  rc_NPI_Count : nat;
  rc_Percentage : float
}.

Record RegionState : Type := mkRegionState {
  rs_StateCode : string;
  rs_NPI_Count : nat;
  rs_name : string
}.

Record UsageByRegion : Type := mkUsageByRegion {
  ur_MappedRegion : string;
  ur_UsageTime : float
}.

Record UsageByState : Type := mkUsageByState {
  us_StateCode : string;
  us_UsageTime : float;
  us_StateName : string
}.

Record TopState : Type := mkTopState {
  ts_StateCode : string;
  ts_State : string;
  ts_Count : nat;
  ts_StateName : string
}.

(** * The pipeline, for any sort that [sort_values] may be *)

Section Pandas.

Variable sort_values_desc : forall A : Type, (A -> nat) -> list A -> list A.
Arguments sort_values_desc {A}.
Hypothesis sort_values_desc_spec : sorts_descending (@sort_values_desc).

(** [series.value_counts()]: each distinct value that is not missing
    with its count, the largest count first. *)
Definition value_counts (series : list text) : list (string * nat) :=
  sort_values_desc snd
    (map (fun v => (v, count_occ string_dec (texts series) v))
         (unique (texts series))).

(** ** State Normalizer (lines 178-206) *)

Definition standardize_state_codes (df_to_process : DataFrame)
    : result DataFrame :=
  let data_df := df_to_process in
  let valid_states :=
    index_tolist (value_counts (map State (records df_to_process))) in
  if Nat.ltb 0 (len data_df) then
    state <- getitem data_df "State" ;;
    first <- iloc0 state ;;
    n <- py_len first ;;
    data_df <-
      (if Nat.ltb 2 n then
         Ok (setitem data_df "StateCode"
               (map (get_or_self state_name_to_code) state))
       else
         let data_df := setitem data_df "StateCode" state in
         state <- getitem data_df "State" ;;
         Ok (setitem data_df "StateName"
               (map (get_or_self state_code_to_name) state))) ;;
    code <- getitem data_df "StateCode" ;;
    state <- getitem data_df "State" ;;
    let data_df :=
      loc data_df (mask_or (isin code valid_states) (isin state valid_states)) in
    code <- getitem data_df "StateCode" ;;
    Ok (setitem data_df "MappedRegion"
          (map (fun c => Text (get_region c)) code))
  else Ok data_df.

(** ** Aggregation Stage (lines 215-479) *)

(** Lines 217-235 *)
Definition state_counts (processed_df : DataFrame)
    (selected_region : option string) : result (list StateCount) :=
  code <- getitem processed_df "StateCode" ;;
  let state_counts :=
    map (fun kn =>
           mkStateCount (fst kn) (snd kn)
             (dict_getd state_code_to_name (fst kn) (fst kn))
             (get_region (fst kn)))
        (groupby_size str_cmp (texts code)) in
  match selected_region with
  | Some r =>
      if truthy r then
        let valid_states := dict_getd region_mapping r [] in
        Ok (filter (fun s => mem (sc_StateCode s) valid_states) state_counts)
      else Ok state_counts
  | None => Ok state_counts
  end.

(** Lines 305-306 *)
Definition region_counts (processed_df : DataFrame)
    : result (list RegionCount) :=
  region <- getitem processed_df "MappedRegion" ;;
  let g := groupby_size str_cmp (texts region) in
  let total := fold_right Nat.add 0 (map snd g) in
  Ok (map (fun kn =>
             mkRegionCount (fst kn) (snd kn)
               (round1 (float_of_nat (snd kn) / float_of_nat total * 100)))
          g).

(** Lines 325-326 *)
Definition region_states (processed_df : DataFrame)
    : result (list RegionState) :=
  code <- getitem processed_df "StateCode" ;;
  Ok (map (fun kn =>
             mkRegionState (fst kn) (snd kn)
               (dict_getd state_code_to_name (fst kn) (fst kn)))
          (groupby_size str_cmp (texts code))).

(** Lines 304-342: the pie of the regional column, by resolved region
    when no region is selected and by state code otherwise. *)
Definition regional_pie (processed_df : DataFrame)
    (selected_region : option string)
    : result (list RegionCount + list RegionState) :=
  match selected_region with
  | None => rc <- region_counts processed_df ;; Ok (inl rc)
  | Some _ => rs <- region_states processed_df ;; Ok (inr rs)
  end.

(** Lines 349-350 *)
Definition usage_by_region (processed_df : DataFrame)
    : result (list UsageByRegion) :=
  region <- getitem processed_df "MappedRegion" ;;
  Ok (map (fun km => mkUsageByRegion (fst km) (round1 (snd km)))
          (groupby_agg str_cmp group_mean
             (keyed (combine region (usage_time processed_df))))).

(** Lines 363-365 *)
Definition usage_by_state (processed_df : DataFrame)
    : result (list UsageByState) :=
  code <- getitem processed_df "StateCode" ;;
  Ok (map (fun km =>
             mkUsageByState (fst km) (round1 (snd km))
               (dict_getd state_code_to_name (fst km) (fst km)))
          (groupby_agg str_cmp group_mean
             (keyed (combine code (usage_time processed_df))))).

(** Lines 346-375: the bar chart of mean usage, by region or, when a
    region is selected, by state; no chart without the usage column. *)
Definition usage_chart (processed_df : DataFrame)
    (selected_region : option string)
    : result (list UsageByRegion + list UsageByState) :=
  if mem "Usage Time (mins)" (columns processed_df) then
    match selected_region with
    | None => u <- usage_by_region processed_df ;; Ok (inl u)
    | Some _ => u <- usage_by_state processed_df ;; Ok (inr u)
    end
  else Ok (inl []).

(** Lines 454-456 *)
Definition top_states (processed_df : DataFrame) : result (list TopState) :=
  code <- getitem processed_df "StateCode" ;;
  state <- getitem processed_df "State" ;;
  let top_states :=
    map (fun kn =>
           mkTopState (fst (fst kn)) (snd (fst kn)) (snd kn)
             (dict_getd state_code_to_name (fst (fst kn)) (fst (fst kn))))
        (groupby_size pair_cmp (keyed2 (combine code state))) in
  Ok (firstn 10 (sort_values_desc ts_Count top_states)).

(** Lines 468-477 *)
Definition stats_df (processed_df : DataFrame) : list (string * string) :=
  let usage := usage_time processed_df in
  [ ("Mean", format_f 2 (mean usage));
    ("Median", format_f 2 (median usage));
    ("Minimum", format_f 2 (fmin usage));
    ("Maximum", format_f 2 (fmax usage));
    ("Standard Deviation", format_f 2 (std usage)) ].

Record Aggregates : Type := mkAggregates {
  agg_state_counts : list StateCount;
  agg_regional_pie : list RegionCount + list RegionState;
  agg_usage_chart : list UsageByRegion + list UsageByState;
  agg_top_states : list TopState;
  agg_stats_df : list (string * string)
}.

(** The aggregates in the order the page computes them; the first
    exception ends the run (it reaches the handler of line 509). *)
Definition aggregation_stage (processed_df : DataFrame)
    (selected_region : option string) : result Aggregates :=
  sc <- state_counts processed_df selected_region ;;
  pie <- regional_pie processed_df selected_region ;;
  usage <- usage_chart processed_df selected_region ;;
  top <- top_states processed_df ;;
  Ok (mkAggregates sc pie usage top (stats_df processed_df)).

(** ** The page (lines 93-511) *)

Record Page : Type := mkPage {
  page_filtered_df : DataFrame;
  page_csv_data : Table;
  page_excel_data : Table;
  page_aggregates : result Aggregates
}.

(** One run on an uploaded table and a selection: [None] when the run
    stops at the warning of line 128, else the filtered table, the two
    downloads and the aggregates, or the exception that replaced them. *)
Definition dashboard (upload : list Provider) (selected_specialty : string)
    (choice : string) : option Page :=
  let df := frame upload in
  let selected_region := choose_region choice in
  match filter_stage df selected_specialty selected_region with
  | None => None
  | Some filtered_df =>
      Some (mkPage filtered_df (csv_data filtered_df) (excel_data filtered_df)
              (processed_df <- standardize_state_codes filtered_df ;;
               aggregation_stage processed_df selected_region))
  end.

(** ** Sample tables *)

(** [sample_data] (lines 49-55) *)
Definition sample_data : list Provider :=
  [ mkProvider "1234567890" "Cardiology" "NY" "Northeast" 45.2;
    mkProvider "2345678901" "Pediatrics" "CA" "West" 32.7;
    mkProvider "3456789012" "Oncology" "TX" "South" 58.1;
    mkProvider "4567890123" "Cardiology" "FL" "South" 41.5;
    mkProvider "5678901234" "Neurology" "IL" "Midwest" 37.8 ].

(** One provider whose state is given by its full name. *)
Definition name_form_table : list Provider :=
  [ mkProvider "1234567890" "Cardiology" "New York" "Northeast" 45.2 ].

(** Two providers of one specialty in two states, New York first. *)
Definition tie_table : list Provider :=
  [ mkProvider "1234567890" "Cardiology" "NY" "Northeast" 45.2;
    mkProvider "2345678901" "Cardiology" "CA" "West" 32.7 ].

(** A provider in New York whose uploaded region says West. *)
Definition mismatch_table : list Provider :=
  [ mkProvider "1234567890" "Cardiology" "NY" "West" 45.2;
    mkProvider "2345678901" "Cardiology" "CA" "West" 32.7;
    mkProvider "3456789012" "Cardiology" "TX" "South" 58.1 ].

(** Two providers in New York, one by name and one by code. *)
Definition mixed_table : list Provider :=
  [ mkProvider "1234567890" "Cardiology" "New York" "Northeast" 45.2;
    mkProvider "2345678901" "Cardiology" "NY" "Northeast" 32.7 ].

(** A provider in Texas by code and one in New York by name. *)
Definition code_then_name_table : list Provider :=
  [ mkProvider "1234567890" "Cardiology" "TX" "South" 45.2;
    mkProvider "2345678901" "Cardiology" "New York" "Northeast" 32.7 ].

(** Three providers, the second with a blank state cell. *)
Definition blank_state_table : list Provider :=
  [ mkProvider "1234567890" "Cardiology" "NY" "Northeast" 45.2;
    mkProvider "2345678901" "Cardiology" NaN "West" 32.7;
    mkProvider "3456789012" "Cardiology" "CA" "West" 58.1 ].

(** Two providers, the first with a blank state cell. *)
Definition blank_first_table : list Provider :=
  [ mkProvider "1234567890" "Cardiology" NaN "Northeast" 45.2;
    mkProvider "2345678901" "Cardiology" "CA" "West" 32.7 ].



(** ** Quantities the statements speak of *)

(** The row has a state: its [State] cell is not blank. *)
Definition has_state (p : Provider) : bool := is_text (State p).

(** The rows with a state, in order. *)
Definition kept_rows (l : list Provider) : list Provider :=
  filter has_state l.

(** The states of the rows that have one, in order. *)
Definition states (l : list Provider) : list string := texts (map State l).

(** The first row has a state. *)
Definition starts_with_state (l : list Provider) : bool :=
  match l with
  | [] => false
  | p :: _ => has_state p
  end.

(** The form the normalizer detects: the first [State] value is longer
    than two characters. *)
Definition name_form (l : list Provider) : bool :=
  match l with
  | [] => false
  | p :: _ =>
      match State p with
      | Text s => Nat.ltb 2 (String.length s)
      | NaN => false
      end
  end.

(** The resolved state code of each row that has a state. *)
Definition resolved_codes (l : list Provider) : list string :=
  if name_form l then
    map (fun s => dict_getd state_name_to_code s s) (states l)
  else states l.

(** The resolved region of each row that has a state. *)
Definition resolved_regions (l : list Provider) : list string :=
  map (fun c => get_region (Text c)) (resolved_codes l).

(** The allow-list of the normalizer. *)
Definition valid_states_of (l : list Provider) : list string :=
  index_tolist (value_counts (map State l)).

(** The columns the normalizer adds to a table whose first row has a
    state. *)
Definition normalized_columns (l : list Provider) : dict (list text) :=
  if name_form l then
    [ ("StateCode", map Text (resolved_codes l));
      ("MappedRegion", map Text (resolved_regions l)) ]
  else
    [ ("StateCode", map Text (resolved_codes l));
      ("StateName",
       map Text (map (fun s => dict_getd state_code_to_name s s) (states l)));
      ("MappedRegion", map Text (resolved_regions l)) ].

(** The rows the Filter Stage keeps: the specialty as selected and, when
    a region is given, the uploaded region as selected. *)
Definition matches (selected_specialty : string)
    (selected_region : option string) (p : Provider) : bool :=
  String.eqb (Speciality p) selected_specialty
  && (if region_given selected_region
      then String.eqb (Region p) (match selected_region with
                                  | Some r => r
                                  | None => ""
                                  end)
      else true).

(** The cells of an uploaded row. *)
Definition base_cells (p : Provider) : list cell :=
  [Str (NPI p); Str (Speciality p); cell_of (State p); Str (Region p);
   Num (UsageTime p)].

(** The usage times of the rows whose key is [g]. *)
Definition usage_of (g : string) (key : list string) (l : list Provider)
    : list float :=
  map snd (filter (fun kv => String.eqb g (fst kv))
                  (combine key (map UsageTime l))).

(** The key of a row of the top-states listing. *)
Definition ts_key (r : TopState) : string * string :=
  (ts_StateCode r, ts_State r).

(** The number of rows with the resolved code and the state of [k]. *)
Definition rows_with (k : string * string) (pairs : list (string * string))
    : nat :=
  List.length
    (filter (fun q => String.eqb (fst k) (fst q) && String.eqb (snd k) (snd q))
            pairs).

(** The resolved code and the uploaded state of each row that has a
    state. *)
Definition code_state_pairs (l : list Provider) : list (string * string) :=
  combine (resolved_codes l) (states l).

(** The listing as spec.md words it: the state codes in order of first
    appearance with their provider counts, sorted by count with a stable
    sort, the first ten kept. *)
Definition top_states_first_seen (code : list string) : list (string * nat) :=
  firstn 10
    (insertion_sort_desc _ snd
       (map (fun c => (c, count_occ string_dec code c)) (unique code))).

(** The sum of a column of counts. *)
Definition sum_counts (counts : list nat) : nat := fold_right Nat.add 0 counts.

(** The values [get_region] can return. *)
Definition region_names : list string :=
  ["Northeast"; "Midwest"; "South"; "West"; "Unknown"].

(** *** Exact values of floats *)






(** * Properties *)

(** ** Lists, masks and dictionaries *)

Lemma mem_In (x : string) (l : list string) : mem x l = true <-> In x l.
Proof.
  unfold mem. rewrite existsb_exists. split.
  - intros [y [Hy Heq]]. apply String.eqb_eq in Heq. now subst.
  - intros H. exists x. split; [assumption | apply String.eqb_refl].
Qed.

Lemma dict_get_In {V : Type} (d : dict V) (k : string) (v : V) :
  dict_get d k = Some v -> In (k, v) d.
Proof.
  induction d as [|[k' v'] d IH]; simpl; [discriminate|].
  destruct (String.eqb_spec k' k) as [->|Hne].
  - intros [= ->]. now left.
  - intros H. right. now apply IH.
Qed.

Lemma dict_get_keys {V : Type} (d : dict V) (k : string) :
  In k (keys d) -> exists v, dict_get d k = Some v.
Proof.
  induction d as [|[k' v'] d IH]; simpl; [contradiction|].
  intros [->|Hin].
  - rewrite String.eqb_refl. now exists v'.
  - destruct (String.eqb k' k); [now exists v' | now apply IH].
Qed.

Lemma select_all {A : Type} (mask : list bool) (l : list A) :
  List.length mask = List.length l ->
  Forall (fun b => b = true) mask ->
  select mask l = l.
Proof.
  revert l. induction mask as [|b mask IH]; intros [|x l]; simpl;
    try discriminate; [reflexivity|].
  intros [= Hlen] Hall. inversion Hall; subst. f_equal. now apply IH.
Qed.

Lemma select_map {A : Type} (f : A -> bool) (l : list A) :
  select (map f l) l = filter f l.
Proof.
  induction l as [|x l IH]; simpl; [reflexivity|].
  rewrite IH. reflexivity.
Qed.

Lemma mask_or_length (m1 m2 : list bool) :
  List.length m1 = List.length m2 ->
  List.length (mask_or m1 m2) = List.length m2.
Proof.
  revert m2. induction m1 as [|a m1 IH]; intros [|b m2]; simpl;
    try discriminate; [reflexivity|].
  intros [= Hlen]. f_equal. now apply IH.
Qed.

Lemma mask_or_true_r (m1 m2 : list bool) :
  List.length m1 = List.length m2 ->
  Forall (fun b => b = true) m2 ->
  Forall (fun b => b = true) (mask_or m1 m2).
Proof.
  revert m2. induction m1 as [|a m1 IH]; intros [|b m2]; simpl;
    try discriminate; [constructor|].
  intros [= Hlen] Hall. inversion Hall; subst. constructor.
  - apply orb_true_r.
  - now apply IH.
Qed.

Lemma select_map_map {A B : Type} (h : A -> bool) (g : A -> B) (l : list A) :
  select (map h l) (map g l) = map g (filter h l).
Proof.
  induction l as [|x l IH]; simpl; [reflexivity|].
  destruct (h x); simpl; now rewrite IH.
Qed.

Lemma texts_map_Text (l : list string) : texts (map Text l) = l.
Proof. induction l as [|s l IH]; simpl; [reflexivity | now rewrite IH]. Qed.

Lemma texts_In (s : string) (l : list text) :
  In s (texts l) <-> In (Text s) l.
Proof.
  induction l as [|[t|] l IH]; simpl.
  - reflexivity.
  - rewrite IH. split; intros [H|H]; auto; left; congruence.
  - rewrite IH. split; [auto | intros [H|H]; [discriminate | assumption]].
Qed.

Lemma cell_in_In (s : string) (l : list string) :
  cell_in (Text s) l = true <-> In s l.
Proof. apply mem_In. Qed.

(** ** Reference tables *)

(** The four member lists are pairwise disjoint. *)
Lemma region_members_disjoint (r1 r2 : string) (m1 m2 : list string) :
  In (r1, m1) region_mapping -> In (r2, m2) region_mapping -> r1 <> r2 ->
  disjointb m1 m2 = true.
Proof.
  intros H1 H2 Hne. cbv [region_mapping dict_of_items fold_left] in H1, H2.
  vm_compute in H1, H2.
  repeat (destruct H1 as [H1|H1]; [inversion H1; subst; clear H1|]);
    try contradiction;
    repeat (destruct H2 as [H2|H2]; [inversion H2; subst; clear H2|]);
    try contradiction; try (exfalso; apply Hne; reflexivity);
    vm_compute; reflexivity.
Qed.

(** Every key of the code-to-name table other than ["_NM"] is in exactly
    one region. *)
Lemma mapped_code_one_region (code : string) :
  In code (keys state_code_to_name) -> code <> "_NM" ->
  exists r, regions_of code = [r].
Proof.
  intros Hin Hne. vm_compute in Hin.
  repeat (destruct Hin as [Hin|Hin];
          [subst code; first [ now (exfalso; apply Hne)
                             | eexists; vm_compute; reflexivity ]|]).
  contradiction.
Qed.

(** (C3) The key ["_NM"] of the code-to-name table (line 79) is in no
    region: the claim that every mapped code belongs to exactly one of the
    four regions fails there, while ["NM"], which the West list holds, has
    no name. *)
Theorem mapped_code_NM_in_no_region :
  dict_get state_code_to_name "_NM" = Some "New Mexico"
  /\ regions_of "_NM" = []
  /\ get_region "_NM" = "Unknown"
  /\ dict_get state_code_to_name "NM" = None
  /\ regions_of "NM" = ["West"].
Proof. vm_compute. repeat split. Qed.

(** (C6) For every key of the code-to-name table, mapping the code to its
    name and the name back through the reversed table returns the code. *)
Theorem code_name_code_roundtrip (code : string) :
  In code (keys state_code_to_name) ->
  exists name,
    dict_get state_code_to_name code = Some name
    /\ dict_get state_name_to_code name = Some code.
Proof.
  intros Hin. vm_compute in Hin.
  repeat (destruct Hin as [Hin|Hin];
          [subst code; eexists; split; vm_compute; reflexivity|]).
  contradiction.
Qed.

Lemma code_name_code_roundtrip_witness :
  In "NY" (keys state_code_to_name)
  /\ exists name,
       dict_get state_code_to_name "NY" = Some name
       /\ dict_get state_name_to_code name = Some "NY".
Proof.
  assert (H : In "NY" (keys state_code_to_name)).
  { vm_compute. do 31 right. left. reflexivity. }
  split; [exact H | exact (code_name_code_roundtrip "NY" H)].
Defined.

(** [get_region] answers with a region that holds the code, or with
    ["Unknown"]. *)
Lemma get_region_in_sound (items : list (string * list string))
    (c : text) (g : string) :
  NoDup (map fst items) ->
  get_region_in items c = g -> g <> "Unknown" ->
  exists members, dict_get items g = Some members /\ cell_in c members = true.
Proof.
  induction items as [|[r sts] items IH]; simpl; intros Hnd Hg Hne.
  - now subst.
  - destruct (cell_in c sts) eqn:Hmem.
    + subst g. rewrite String.eqb_refl. now exists sts.
    + inversion Hnd as [|? ? Hnotin Hnd']; subst.
      destruct (IH Hnd' eq_refl Hne) as [members [Hget Hin]].
      exists members. split; [|assumption].
      destruct (String.eqb_spec r (get_region_in items c)) as [Heq|_];
        [|assumption].
      exfalso. apply Hnotin. rewrite Heq.
      apply dict_get_In in Hget.
      apply in_map_iff. now exists (get_region_in items c, members).
Qed.

Lemma region_mapping_keys_NoDup : NoDup (map fst region_mapping).
Proof.
  vm_compute. repeat constructor; simpl; intuition discriminate.
Qed.

Lemma get_region_sound (c : text) (g : string) :
  get_region c = g -> g <> "Unknown" ->
  exists members s,
    dict_get region_mapping g = Some members /\ c = Text s /\ In s members.
Proof.
  intros Hg Hne.
  destruct (get_region_in_sound region_mapping c g
              region_mapping_keys_NoDup Hg Hne) as [members [Hget Hin]].
  destruct c as [s|]; [|discriminate Hin].
  exists members, s. split; [assumption|]. split; [reflexivity|].
  now apply mem_In.
Qed.

(** ** Sorting by a column *)

Lemma insert_desc_perm {A : Type} (by_ : A -> nat) (x : A) (l : list A) :
  Permutation (insert_desc by_ x l) (x :: l).
Proof.
  induction l as [|y t IH]; simpl; [reflexivity|].
  destruct (Nat.ltb (by_ x) (by_ y)); [|reflexivity].
  rewrite IH. apply perm_swap.
Qed.

Lemma insert_desc_sorted {A : Type} (by_ : A -> nat) (x : A) (l : list A) :
  StronglySorted (fun a b => by_ b <= by_ a) l ->
  StronglySorted (fun a b => by_ b <= by_ a) (insert_desc by_ x l).
Proof.
  induction l as [|y t IH]; simpl; intros Hs.
  - repeat constructor.
  - inversion Hs as [|? ? Hst Hall]; subst.
    destruct (Nat.ltb_spec (by_ x) (by_ y)) as [Hlt|Hge].
    + constructor; [now apply IH|].
      apply Forall_forall. intros z Hz.
      apply (Permutation_in _ (insert_desc_perm by_ x t)) in Hz.
      destruct Hz as [<-|Hz]; [lia|].
      rewrite Forall_forall in Hall. now apply Hall.
    + constructor; [assumption|]. constructor; [assumption|].
      apply Forall_forall. intros z Hz. rewrite Forall_forall in Hall.
      specialize (Hall z Hz). lia.
Qed.

(** The insertion sort is one of the sorts [sort_values] may be. *)
Lemma insertion_sort_desc_spec : sorts_descending insertion_sort_desc.
Proof.
  intros A by_ l. unfold insertion_sort_desc. split.
  - induction l as [|x l IH]; simpl; [reflexivity|].
    rewrite insert_desc_perm. now constructor.
  - induction l as [|x l IH]; simpl; [constructor|].
    now apply insert_desc_sorted.
Qed.

Lemma sort_values_desc_perm {A : Type} (by_ : A -> nat) (l : list A) :
  Permutation (sort_values_desc by_ l) l.
Proof. apply sort_values_desc_spec. Qed.

Lemma sort_values_desc_ordered {A : Type} (by_ : A -> nat) (l : list A) :
  StronglySorted (fun a b => by_ b <= by_ a) (sort_values_desc by_ l).
Proof. apply sort_values_desc_spec. Qed.

Lemma sort_values_desc_In {A : Type} (by_ : A -> nat) (x : A) (l : list A) :
  In x (sort_values_desc by_ l) <-> In x l.
Proof.
  split; apply Permutation_in;
    [apply sort_values_desc_perm | symmetry; apply sort_values_desc_perm].
Qed.

(** ** The allow-list *)

Lemma unique_In (x : string) (l : list string) : In x (unique l) <-> In x l.
Proof.
  induction l as [|y l IH]; simpl; [reflexivity|].
  rewrite filter_In, IH, negb_true_iff, String.eqb_neq.
  destruct (string_dec y x) as [->|Hne]; intuition congruence.
Qed.

Lemma unique_NoDup (l : list string) : NoDup (unique l).
Proof.
  induction l as [|y l IH]; simpl; constructor.
  - rewrite filter_In, negb_true_iff, String.eqb_neq. intuition.
  - now apply NoDup_filter.
Qed.

(** The allow-list holds exactly the strings of the [State] column: a
    blank cell is not counted. *)
Lemma value_counts_index (x : string) (series : list text) :
  In x (index_tolist (value_counts series)) <-> In (Text x) series.
Proof.
  rewrite <- texts_In.
  unfold index_tolist, value_counts. rewrite in_map_iff. split.
  - intros [[v n] [<- Hin]].
    apply (proj1 (sort_values_desc_In _ _ _)) in Hin.
    apply in_map_iff in Hin. destruct Hin as [v' [[= <- _] Hv]].
    now apply unique_In.
  - intros Hx.
    exists (x, count_occ string_dec (texts series) x). split; [reflexivity|].
    apply sort_values_desc_In. apply in_map_iff. exists x.
    split; [reflexivity | now apply unique_In].
Qed.

(** ** State Normalizer *)

Lemma bind_Ok {A B : Type} (a : A) (k : A -> result B) :
  bind (Ok a) k = k a.
Proof. reflexivity. Qed.

Lemma states_kept (l : list Provider) : states (kept_rows l) = states l.
Proof.
  unfold states, kept_rows, has_state.
  induction l as [|p l IH]; simpl; [reflexivity|].
  destruct (State p) eqn:Hp; simpl; rewrite ?Hp; simpl; now rewrite IH.
Qed.

Lemma states_length (l : list Provider) :
  List.length (states l) = List.length (kept_rows l).
Proof.
  unfold states, kept_rows, has_state.
  induction l as [|p l IH]; simpl; [reflexivity|].
  destruct (State p); simpl; now rewrite IH.
Qed.

Lemma kept_States (l : list Provider) :
  map State (kept_rows l) = map Text (states l).
Proof.
  unfold states, kept_rows, has_state.
  induction l as [|p l IH]; simpl; [reflexivity|].
  destruct (State p) eqn:Hp; simpl; rewrite ?Hp; now rewrite ?IH.
Qed.

Lemma kept_get_or_self (d : dict string) (l : list Provider) :
  map (get_or_self d) (map State (kept_rows l))
  = map Text (map (fun s => dict_getd d s s) (states l)).
Proof. rewrite kept_States, !map_map. reflexivity. Qed.

Lemma resolved_codes_length (l : list Provider) :
  List.length (resolved_codes l) = List.length (kept_rows l).
Proof.
  unfold resolved_codes.
  destruct (name_form l); now rewrite ?length_map, states_length.
Qed.

(** The retention mask of line 195 is true at exactly the rows that
    have a state, whatever the resolved code is. *)
Lemma retention_mask (f : text -> text) (valid : list string)
    (l : list Provider) :
  f NaN = NaN ->
  (forall s, In (Text s) (map State l) -> In s valid) ->
  mask_or (isin (map f (map State l)) valid) (isin (map State l) valid)
  = map has_state l.
Proof.
  intros Hf. unfold isin, has_state.
  induction l as [|p l IH]; intros Hvalid; simpl; [reflexivity|].
  rewrite IH by (intros s Hs; apply Hvalid; now right). f_equal.
  destruct (State p) as [s|] eqn:Hp.
  - simpl. rewrite (proj2 (mem_In s valid)); [apply orb_true_r|].
    apply Hvalid. left. now rewrite Hp.
  - rewrite Hf. reflexivity.
Qed.

Lemma retention_mask_rows (f : text -> text) (l : list Provider) :
  f NaN = NaN ->
  mask_or (isin (map f (map State l)) (valid_states_of l))
          (isin (map State l) (valid_states_of l))
  = map has_state l.
Proof.
  intros Hf. apply retention_mask; [assumption|].
  intros s Hs. now apply value_counts_index.
Qed.

(** The normalizer on a table whose first row has a state: the rows
    that have a state are kept, the others removed, and the added columns
    are [normalized_columns]. *)
Lemma standardize_state_codes_rows (l : list Provider) :
  starts_with_state l = true ->
  standardize_state_codes (frame l)
  = Ok (mkDataFrame (kept_rows l) (normalized_columns l)).
Proof.
  intros Hst. destruct l as [|p t]; [discriminate|].
  cbn [starts_with_state] in Hst. unfold has_state in Hst.
  destruct (State p) as [s0|] eqn:Hp; [|discriminate]. clear Hst.
  set (l := p :: t).
  assert (Hform : name_form l = Nat.ltb 2 (String.length s0)).
  { unfold l. cbn [name_form]. now rewrite Hp. }
  unfold standardize_state_codes, normalized_columns, resolved_regions.
  change (Nat.ltb 0 (len (frame l))) with true. cbv iota.
  change (getitem (frame l) "State") with (Ok (map State l)).
  rewrite bind_Ok.
  change (iloc0 (map State l)) with (Ok (State p)).
  rewrite bind_Ok, Hp. cbn [py_len]. rewrite bind_Ok.
  change (records (frame l)) with l.
  fold (valid_states_of l).
  rewrite <- Hform.
  assert (Hrc : map Text (resolved_codes l)
                = if name_form l
                  then map (get_or_self state_name_to_code)
                           (map State (kept_rows l))
                  else map State (kept_rows l)).
  { unfold resolved_codes. destruct (name_form l).
    - now rewrite kept_get_or_self.
    - now rewrite kept_States. }
  pose proof (retention_mask_rows (get_or_self state_name_to_code) l eq_refl)
    as Hmask1.
  pose proof (retention_mask_rows (fun x => x) l eq_refl) as Hmask2.
  rewrite map_id in Hmask2.
  assert (Hreg : map Text (map (fun c : string => get_region c)
                              (resolved_codes l))
                 = map (fun c : text => Text (get_region c))
                       (map Text (resolved_codes l))).
  { now rewrite !map_map. }
  clearbody l.
  destruct (name_form l).
  - rewrite bind_Ok.
    unfold setitem, loc, frame, getitem, bind, Ok.
    cbn [records added dict_set dict_get String.eqb Ascii.eqb Bool.eqb
         map fst snd].
    rewrite Hreg, Hrc.
    rewrite Hmask1, select_map, !map_map, !select_map_map, ?map_map.
    reflexivity.
  - unfold setitem, loc, frame, getitem, bind, Ok.
    cbn [records added dict_set dict_get String.eqb Ascii.eqb Bool.eqb
         map fst snd].
    rewrite Hreg, Hrc, <- kept_get_or_self.
    rewrite Hmask2, select_map, !map_map, !select_map_map, ?map_map.
    reflexivity.
Qed.

(** A blank first state cell has no length: the normalizer raises. *)
Lemma standardize_state_codes_blank (p : Provider) (t : list Provider) :
  State p = NaN ->
  standardize_state_codes (frame (p :: t)) = Raise TypeError.
Proof.
  intros Hp. unfold standardize_state_codes.
  change (Nat.ltb 0 (len (frame (p :: t)))) with true. cbv iota.
  change (getitem (frame (p :: t)) "State") with (Ok (map State (p :: t))).
  rewrite bind_Ok. cbn [map iloc0]. rewrite bind_Ok, Hp. reflexivity.
Qed.

Lemma standardize_state_codes_empty :
  standardize_state_codes (frame []) = Ok (frame []).
Proof. reflexivity. Qed.

Lemma kept_rows_all (l : list Provider) :
  (forall p, In p l -> has_state p = true) -> kept_rows l = l.
Proof.
  intros H. unfold kept_rows. induction l as [|p l IH]; simpl; [reflexivity|].
  rewrite (H p) by now left. f_equal. apply IH. intros q Hq. apply H.
  now right.
Qed.

Lemma normalized_columns_length (l : list Provider) :
  Forall (fun kv => List.length (snd kv) = List.length (kept_rows l))
         (normalized_columns l).
Proof.
  unfold normalized_columns, resolved_regions.
  destruct (name_form l); repeat constructor; cbn [snd];
    now rewrite ?length_map, ?resolved_codes_length, ?states_length.
Qed.

(** (C7, as the code has it) On a table whose first row has a state,
    the normalizer removes exactly the rows whose state cell is blank:
    the retention mask of line 195 is true at the rows with a state,
    whose value is in the allow-list, and false at the others. A table
    without blank state cells loses no row. *)
Theorem normalizer_removes_blank_rows (l : list Provider) :
  starts_with_state l = true ->
  mask_or
    (isin (map (if name_form l then get_or_self state_name_to_code
                else fun x => x) (map State l))
          (valid_states_of l))
    (isin (map State l) (valid_states_of l))
  = map has_state l
  /\ exists out,
       standardize_state_codes (frame l) = Ok out
       /\ records out = filter has_state l
       /\ Forall (fun kv => List.length (snd kv) = List.length (records out))
                 (added out)
       /\ ((forall p, In p l -> State p <> NaN) -> records out = l).
Proof.
  intros Hst. split.
  - apply retention_mask_rows. now destruct (name_form l).
  - exists (mkDataFrame (kept_rows l) (normalized_columns l)).
    split; [now apply standardize_state_codes_rows|].
    split; [reflexivity|].
    split; [apply normalized_columns_length|].
    intros Hall. apply kept_rows_all. intros p Hp.
    specialize (Hall p Hp). unfold has_state.
    destruct (State p); [reflexivity | contradiction].
Qed.

(** (C4, as the code has it) On a table whose first row has a state, the
    normalizer keeps the rows that have a state and adds a resolved code
    column and a resolved region column in both forms; it adds a display
    name column in the code form only (first value of at most two
    characters). On a table whose first state cell is blank it raises
    [TypeError]. *)
Theorem normalizer_adds_columns (l : list Provider) :
  l <> [] ->
  (starts_with_state l = true ->
   exists out,
     standardize_state_codes (frame l) = Ok out
     /\ records out = filter has_state l
     /\ columns out
        = base_columns
          ++ (if name_form l then ["StateCode"; "MappedRegion"]
              else ["StateCode"; "StateName"; "MappedRegion"])
     /\ getitem out "StateCode" = Ok (map Text (resolved_codes l))
     /\ getitem out "MappedRegion"
        = Ok (map (fun c => Text (get_region (Text c))) (resolved_codes l))
     /\ getitem out "StateName"
        = if name_form l then Raise (KeyError "StateName")
          else Ok (map (fun s => Text (dict_getd state_code_to_name s s))
                       (states l)))
  /\ (starts_with_state l = false ->
      standardize_state_codes (frame l) = Raise TypeError).
Proof.
  intros Hne. split.
  - intros Hst. exists (mkDataFrame (kept_rows l) (normalized_columns l)).
    split; [now apply standardize_state_codes_rows|].
    unfold normalized_columns, resolved_regions, columns.
    destruct (name_form l); rewrite ?map_map; repeat split.
  - intros Hst. destruct l as [|p t]; [contradiction|].
    apply standardize_state_codes_blank.
    cbn [starts_with_state] in Hst. unfold has_state in Hst.
    destruct (State p); [discriminate | reflexivity].
Qed.

(** (C9) In the normalizer's output, a row whose resolved region is not
    ["Unknown"] has its resolved code in the member list of that region. *)
Theorem resolved_region_consistent (l : list Provider) (out : DataFrame)
    (code region : list text) (i : nat) (c : text) (g : string) :
  standardize_state_codes (frame l) = Ok out ->
  getitem out "StateCode" = Ok code ->
  getitem out "MappedRegion" = Ok region ->
  nth_error code i = Some c ->
  nth_error region i = Some (Text g) ->
  g <> "Unknown" ->
  exists members s,
    dict_get region_mapping g = Some members /\ c = Text s /\ In s members.
Proof.
  intros Hout Hcode Hregion Hc Hg Hne.
  destruct (starts_with_state l) eqn:Hst.
  - rewrite standardize_state_codes_rows in Hout by assumption.
    injection Hout as <-.
    unfold normalized_columns, resolved_regions in Hcode, Hregion.
    assert (Hcr : code = map Text (resolved_codes l)
                  /\ region = map (fun c => Text (get_region c)) code).
    { destruct (name_form l); cbv [getitem] in Hcode, Hregion;
        cbn in Hcode, Hregion; unfold Ok in *;
        injection Hcode as <-; injection Hregion as <-;
        rewrite !map_map; split; reflexivity. }
    destruct Hcr as [_ ->].
    rewrite nth_error_map, Hc in Hg. injection Hg as Hg.
    now apply get_region_sound.
  - destruct l as [|p t].
    + rewrite standardize_state_codes_empty in Hout. injection Hout as <-.
      discriminate Hcode.
    + rewrite standardize_state_codes_blank in Hout; [discriminate|].
      cbn [starts_with_state] in Hst. unfold has_state in Hst.
      destruct (State p); [discriminate | reflexivity].
Qed.

(** ** Filter Stage and exports *)

Lemma filter_both {A : Type} (f g : A -> bool) (l : list A) :
  filter g (filter f l) = filter (fun x => f x && g x) l.
Proof.
  induction l as [|x l IH]; simpl; [reflexivity|].
  destruct (f x); simpl; [|assumption].
  destruct (g x); now rewrite IH.
Qed.

(** The Filter Stage keeps the rows that [matches] accepts, in order. *)
Lemma filter_stage_rows (l : list Provider) (selected_specialty : string)
    (selected_region : option string) :
  truthy selected_specialty = true ->
  filter_stage (frame l) selected_specialty selected_region
  = Some (frame (filter (matches selected_specialty selected_region) l)).
Proof.
  intros Hs. unfold filter_stage, matches, region_given. rewrite Hs.
  unfold loc, frame. cbn [records added map].
  rewrite select_map.
  destruct selected_region as [r|].
  - destruct (truthy r).
    + cbn [records]. rewrite select_map, filter_both. reflexivity.
    + do 2 f_equal. apply filter_ext. intros p. now rewrite andb_true_r.
  - do 2 f_equal. apply filter_ext. intros p. now rewrite andb_true_r.
Qed.

Lemma filter_stage_stops (df : DataFrame) (selected_specialty : string)
    (selected_region : option string) :
  truthy selected_specialty = false ->
  filter_stage df selected_specialty selected_region = None.
Proof. intros Hs. unfold filter_stage. now rewrite Hs. Qed.

(** A page is rendered on a selected specialty only, and its filtered
    table holds the matching rows of the upload. *)
Lemma dashboard_filtered (upload : list Provider) (selected_specialty : string)
    (choice : string) (page : Page) :
  dashboard upload selected_specialty choice = Some page ->
  page_filtered_df page
  = frame (filter (matches selected_specialty (choose_region choice)) upload).
Proof.
  unfold dashboard. destruct (truthy selected_specialty) eqn:Hs.
  - rewrite filter_stage_rows by assumption. now intros [= <-].
  - rewrite filter_stage_stops by assumption. discriminate.
Qed.

Lemma dashboard_aggregates (upload : list Provider)
    (selected_specialty : string) (choice : string) (page : Page) :
  dashboard upload selected_specialty choice = Some page ->
  page_aggregates page
  = (processed_df <- standardize_state_codes (page_filtered_df page) ;;
     aggregation_stage processed_df (choose_region choice)).
Proof.
  unfold dashboard.
  destruct (filter_stage (frame upload) selected_specialty
              (choose_region choice)); [|discriminate].
  now intros [= <-].
Qed.

(** A specialty that no row has leaves no row. *)
Lemma no_match_no_row (upload : list Provider) (selected_specialty : string)
    (selected_region : option string) :
  (forall p, In p upload -> Speciality p <> selected_specialty) ->
  filter (matches selected_specialty selected_region) upload = [].
Proof.
  intros H. induction upload as [|p l IH]; simpl; [reflexivity|].
  unfold matches at 1.
  destruct (String.eqb_spec (Speciality p) selected_specialty) as [Heq|_].
  - exfalso. apply (H p); [now left | assumption].
  - simpl. apply IH. intros q Hq. apply H. now right.
Qed.

(** On a filtered table without rows the normalizer changes nothing and
    the aggregation stage raises on its first column access. *)
Lemma empty_rows_raise (selected_region : option string) :
  standardize_state_codes (frame []) = Ok (frame [])
  /\ (processed_df <- standardize_state_codes (frame []) ;;
      aggregation_stage processed_df selected_region)
     = Raise (KeyError "StateCode").
Proof. split; reflexivity. Qed.

(** (C1) When the Filter Stage leaves no row, the normalizer returns the
    table without a [StateCode] column and the first aggregate, the state
    counts, raises [KeyError: 'StateCode']: the aggregation stage ends in
    the error handler, not in zero-row outputs. *)
Theorem empty_filter_result_raises (upload : list Provider)
    (selected_specialty : string) (choice : string) (page : Page) :
  dashboard upload selected_specialty choice = Some page ->
  records (page_filtered_df page) = [] ->
  standardize_state_codes (page_filtered_df page) = Ok (frame [])
  /\ page_aggregates page = Raise (KeyError "StateCode").
Proof.
  intros Hpage Hrows.
  rewrite (dashboard_aggregates _ _ _ _ Hpage).
  rewrite (dashboard_filtered _ _ _ _ Hpage) in Hrows |- *.
  cbn [records frame] in Hrows. rewrite Hrows.
  apply empty_rows_raise.
Qed.

(** The same on a specialty that no row of the upload has. *)
Lemma unmatched_specialty_raises (upload : list Provider)
    (selected_specialty : string) (choice : string) :
  truthy selected_specialty = true ->
  (forall p, In p upload -> Speciality p <> selected_specialty) ->
  exists page,
    dashboard upload selected_specialty choice = Some page
    /\ records (page_filtered_df page) = []
    /\ page_aggregates page = Raise (KeyError "StateCode").
Proof.
  intros Hs Hnone.
  destruct (dashboard upload selected_specialty choice) as [page|] eqn:Hpage.
  - exists page. split; [reflexivity|].
    assert (Hrows : records (page_filtered_df page) = []).
    { rewrite (dashboard_filtered _ _ _ _ Hpage). cbn [records frame].
      now apply no_match_no_row. }
    split; [assumption|].
    rewrite (dashboard_aggregates _ _ _ _ Hpage).
    rewrite (dashboard_filtered _ _ _ _ Hpage) in Hrows |- *.
    cbn [records frame] in Hrows. rewrite Hrows.
    apply empty_rows_raise.
  - unfold dashboard in Hpage. rewrite filter_stage_rows in Hpage by assumption.
    discriminate.
Qed.

Lemma row_cells_base (df : DataFrame) (i : nat) (p : Provider) :
  added df = [] -> row_cells df i p = base_cells p.
Proof. intros H. unfold row_cells. rewrite H. reflexivity. Qed.

Lemma to_table_frame (l : list Provider) :
  to_table (frame l) = mkTable base_columns (map base_cells l).
Proof.
  unfold to_table, columns, len. cbn [records added frame keys map].
  f_equal. generalize 0 as s.
  induction l as [|p l IH]; intros s; [reflexivity|].
  cbn [List.length seq combine map fst snd]. f_equal. apply IH.
Qed.

(** Both downloads are written from the filtered table. *)
Lemma dashboard_exports (upload : list Provider) (selected_specialty : string)
    (choice : string) (page : Page) :
  dashboard upload selected_specialty choice = Some page ->
  page_csv_data page = to_table (page_filtered_df page)
  /\ page_excel_data page = page_csv_data page.
Proof.
  unfold dashboard.
  destruct (filter_stage (frame upload) selected_specialty
              (choose_region choice)); [|discriminate].
  intros [= <-]. split; reflexivity.
Qed.

(** (C5, as the code has it) Both downloads hold the filtered table, the
    output of the Filter Stage before the State Normalizer: the uploaded
    columns of the rows that match the selection, and no resolved code,
    name or region column. *)
Theorem exports_hold_filtered_table (upload : list Provider)
    (selected_specialty : string) (choice : string) (page : Page) :
  dashboard upload selected_specialty choice = Some page ->
  page_csv_data page = to_table (page_filtered_df page)
  /\ page_excel_data page = page_csv_data page
  /\ header (page_csv_data page) = base_columns
  /\ body (page_csv_data page)
     = map base_cells
         (filter (matches selected_specialty (choose_region choice)) upload)
  /\ (forall c, In c ["StateCode"; "StateName"; "MappedRegion"] ->
                ~ In c (header (page_csv_data page))).
Proof.
  intros Hpage.
  assert (Hf := dashboard_filtered _ _ _ _ Hpage).
  destruct (dashboard_exports _ _ _ _ Hpage) as [Hcsv Hxls].
  split; [assumption|]. split; [assumption|].
  rewrite Hcsv, Hf, to_table_frame. cbn [header body].
  split; [reflexivity|]. split; [reflexivity|].
  intros c Hc Hin. cbn in Hc, Hin.
  intuition (subst; discriminate).
Qed.

(** Whenever the normalizer returns on a filtered table with rows, its
    table has columns that the downloads lack. *)
Lemma csv_lacks_resolved_columns (l : list Provider) (processed_df : DataFrame) :
  l <> [] ->
  standardize_state_codes (frame l) = Ok processed_df ->
  In "StateCode" (header (to_table processed_df))
  /\ In "MappedRegion" (header (to_table processed_df))
  /\ csv_data (frame l) <> to_table processed_df.
Proof.
  intros Hne Hpr.
  destruct (starts_with_state l) eqn:Hst.
  - rewrite standardize_state_codes_rows in Hpr by assumption.
    injection Hpr as <-.
    assert (Hcols : In "StateCode"
                       (columns (mkDataFrame (kept_rows l)
                                   (normalized_columns l)))
                    /\ In "MappedRegion"
                         (columns (mkDataFrame (kept_rows l)
                                     (normalized_columns l)))).
    { unfold columns, normalized_columns.
      destruct (name_form l); cbn; intuition. }
    destruct Hcols as [Hc Hr].
    split; [exact Hc|]. split; [exact Hr|].
    intros Heq. unfold csv_data in Heq. rewrite to_table_frame in Heq.
    apply (f_equal header) in Heq. cbn [header to_table] in Heq.
    rewrite <- Heq in Hc. cbn in Hc. intuition discriminate.
  - destruct l as [|p t]; [contradiction|].
    rewrite standardize_state_codes_blank in Hpr; [discriminate|].
    cbn [starts_with_state] in Hst. unfold has_state in Hst.
    destruct (State p); [discriminate | reflexivity].
Qed.



(** ** Grouping *)

Section GroupByFacts.
Context {K : Type} (cmp : K -> K -> comparison).
Hypothesis cmp_eq : forall a b, cmp a b = Eq <-> a = b.
Hypothesis cmp_antisym : forall a b, cmp b a = CompOpp (cmp a b).
Hypothesis cmp_trans :
  forall a b c, cmp a b = Lt -> cmp b c = Lt -> cmp a c = Lt.

Lemma key_eqb_eq (a b : K) : key_eqb cmp a b = true <-> a = b.
Proof.
  unfold key_eqb. rewrite <- cmp_eq.
  destruct (cmp a b); intuition discriminate.
Qed.

Lemma insert_key_In (x k : K) (l : list K) :
  In x (insert_key cmp k l) <-> x = k \/ In x l.
Proof.
  induction l as [|h t IH]; simpl; [intuition|].
  destruct (cmp k h) eqn:Hc; simpl.
  - apply cmp_eq in Hc. subst. intuition.
  - intuition.
  - rewrite IH. intuition.
Qed.

Lemma group_keys_In (x : K) (l : list K) :
  In x (group_keys cmp l) <-> In x l.
Proof.
  induction l as [|k l IH]; simpl; [reflexivity|].
  rewrite insert_key_In, IH. intuition.
Qed.

Lemma insert_key_sorted (k : K) (l : list K) :
  StronglySorted (key_lt cmp) l -> StronglySorted (key_lt cmp) (insert_key cmp k l).
Proof.
  induction l as [|h t IH]; simpl; intros Hs.
  - repeat constructor.
  - inversion Hs as [|? ? Hst Hall]; subst.
    destruct (cmp k h) eqn:Hc.
    + assumption.
    + constructor; [assumption|]. constructor; [assumption|].
      apply Forall_forall. intros z Hz. rewrite Forall_forall in Hall.
      apply (cmp_trans k h z); [assumption | now apply Hall].
    + constructor; [now apply IH|].
      apply Forall_forall. intros z Hz. apply insert_key_In in Hz.
      destruct Hz as [->|Hz].
      * unfold key_lt. rewrite cmp_antisym, Hc. reflexivity.
      * rewrite Forall_forall in Hall. now apply Hall.
Qed.

Lemma group_keys_sorted (l : list K) :
  StronglySorted (key_lt cmp) (group_keys cmp l).
Proof.
  induction l as [|k l IH]; simpl; [constructor|].
  now apply insert_key_sorted.
Qed.

Lemma count_key_pos (k : K) (l : list K) :
  In k l -> 0 < count_key cmp k l.
Proof.
  unfold count_key. induction l as [|x l IH]; simpl; [contradiction|].
  intros [->|Hin].
  - rewrite (proj2 (key_eqb_eq k k) eq_refl). simpl. lia.
  - destruct (key_eqb cmp k x); simpl; [lia | now apply IH].
Qed.
Lemma key_lt_irrefl (a : K) : ~ key_lt cmp a a.
Proof.
  unfold key_lt. rewrite (proj2 (cmp_eq a a) eq_refl). discriminate.
Qed.

(** Two lists in strict ascending order with the same elements are the
    same list. *)
Lemma sorted_keys_unique (l1 l2 : list K) :
  StronglySorted (key_lt cmp) l1 -> StronglySorted (key_lt cmp) l2 ->
  (forall x, In x l1 <-> In x l2) -> l1 = l2.
Proof.
  intros Hs1. revert l2.
  induction Hs1 as [|a t1 Hs1 IH Ha]; intros l2 Hs2 Hin.
  - destruct l2 as [|b t2]; [reflexivity|].
    exfalso. apply (proj2 (Hin b)). now left.
  - destruct Hs2 as [|b t2 Hs2 Hb].
    + exfalso. apply (proj1 (Hin a)). now left.
    + rewrite Forall_forall in Ha, Hb.
      assert (Hab : a = b).
      { destruct (proj1 (Hin a) (or_introl eq_refl)) as [Heq|Hat2];
          [now symmetry|].
        destruct (proj2 (Hin b) (or_introl eq_refl)) as [Heq|Hbt1];
          [assumption|].
        exfalso. apply (key_lt_irrefl a).
        apply (cmp_trans a b a); [now apply Ha | now apply Hb]. }
      subst b. f_equal. apply IH; [assumption|].
      intros x. split; intros Hx.
      * destruct (proj1 (Hin x) (or_intror Hx)) as [Heq|Hx2]; [|assumption].
        subst x. exfalso. apply (key_lt_irrefl a). now apply Ha.
      * destruct (proj2 (Hin x) (or_intror Hx)) as [Heq|Hx1]; [|assumption].
        subst x. exfalso. apply (key_lt_irrefl a). now apply Hb.
Qed.

Lemma count_key_perm (k : K) (l1 l2 : list K) :
  Permutation l1 l2 -> count_key cmp k l1 = count_key cmp k l2.
Proof.
  unfold count_key. induction 1 as [|x l1 l2 _ IH|x y l|l1 l2 l3 _ IH1 _ IH2];
    simpl.
  - reflexivity.
  - destruct (key_eqb cmp k x); simpl; now rewrite IH.
  - destruct (key_eqb cmp k x), (key_eqb cmp k y); reflexivity.
  - now rewrite IH1.
Qed.

(** The grouped table does not depend on the order of the rows. *)
Lemma groupby_size_perm (l1 l2 : list K) :
  Permutation l1 l2 -> groupby_size cmp l1 = groupby_size cmp l2.
Proof.
  intros Hp. unfold groupby_size.
  assert (Hk : group_keys cmp l1 = group_keys cmp l2).
  { apply sorted_keys_unique; try apply group_keys_sorted.
    intros x. rewrite !group_keys_In.
    split; apply Permutation_in; [assumption | now symmetry]. }
  rewrite Hk. apply map_ext. intros k. f_equal. now apply count_key_perm.
Qed.
End GroupByFacts.

(** *** The orders on strings and on pairs of strings *)

Lemma str_lt_irrefl (a : string) : ~ String_as_OT.lt a a.
Proof. apply (irreflexivity (R := String_as_OT.lt)). Qed.

Lemma str_lt_asym (a b : string) :
  String_as_OT.lt a b -> ~ String_as_OT.lt b a.
Proof.
  intros H1 H2. apply (str_lt_irrefl a). now transitivity b.
Qed.

Lemma str_cmp_eq (a b : string) : str_cmp a b = Eq <-> a = b.
Proof.
  unfold str_cmp. split.
  - intros H. destruct (String_as_OT.compare_spec a b); congruence.
  - intros ->. destruct (String_as_OT.compare_spec b b) as [_|H|H];
      [reflexivity | |]; now apply str_lt_irrefl in H.
Qed.

Lemma str_cmp_antisym (a b : string) : str_cmp b a = CompOpp (str_cmp a b).
Proof.
  unfold str_cmp.
  destruct (String_as_OT.compare_spec a b) as [Hab|Hab|Hab];
    destruct (String_as_OT.compare_spec b a) as [Hba|Hba|Hba];
    try reflexivity; exfalso; unfold String_as_OT.eq in *; subst;
    first [ now apply str_lt_irrefl in Hab
          | now apply str_lt_irrefl in Hba
          | now apply (str_lt_asym _ _ Hab) ].
Qed.

Lemma str_cmp_trans (a b c : string) :
  str_cmp a b = Lt -> str_cmp b c = Lt -> str_cmp a c = Lt.
Proof.
  unfold str_cmp. intros H1 H2.
  change (String_as_OT.lt a c). transitivity b; assumption.
Qed.

Lemma str_key_eqb (a b : string) : key_eqb str_cmp a b = String.eqb a b.
Proof.
  destruct (String.eqb_spec a b) as [->|Hne].
  - now apply (key_eqb_eq str_cmp str_cmp_eq).
  - destruct (key_eqb str_cmp a b) eqn:H; [|reflexivity].
    apply (key_eqb_eq str_cmp str_cmp_eq) in H. contradiction.
Qed.

Lemma pair_cmp_eq (a b : string * string) : pair_cmp a b = Eq <-> a = b.
Proof.
  destruct a as [a1 a2], b as [b1 b2]. unfold pair_cmp. cbn [fst snd].
  split.
  - destruct (str_cmp a1 b1) eqn:H1; try discriminate.
    intros H2. apply str_cmp_eq in H1, H2. now subst.
  - intros [= -> ->]. rewrite (proj2 (str_cmp_eq b1 b1) eq_refl).
    now apply str_cmp_eq.
Qed.

Lemma pair_cmp_antisym (a b : string * string) :
  pair_cmp b a = CompOpp (pair_cmp a b).
Proof.
  destruct a as [a1 a2], b as [b1 b2]. unfold pair_cmp. cbn [fst snd].
  rewrite (str_cmp_antisym a1 b1).
  destruct (str_cmp a1 b1); cbn [CompOpp]; try reflexivity.
  apply str_cmp_antisym.
Qed.

Lemma pair_cmp_trans (a b c : string * string) :
  pair_cmp a b = Lt -> pair_cmp b c = Lt -> pair_cmp a c = Lt.
Proof.
  destruct a as [a1 a2], b as [b1 b2], c as [c1 c2].
  unfold pair_cmp. cbn [fst snd].
  destruct (str_cmp a1 b1) eqn:H1; try discriminate;
    destruct (str_cmp b1 c1) eqn:H2; try discriminate; intros H3 H4.
  - apply str_cmp_eq in H1, H2. subst.
    rewrite (proj2 (str_cmp_eq c1 c1) eq_refl).
    eapply str_cmp_trans; eassumption.
  - apply str_cmp_eq in H1. subst. now rewrite H2.
  - apply str_cmp_eq in H2. subst. now rewrite H1.
  - now rewrite (str_cmp_trans _ _ _ H1 H2).
Qed.

Lemma count_key_str (k : string) (l : list string) :
  count_key str_cmp k l = count_occ string_dec l k.
Proof.
  unfold count_key. induction l as [|x l IH]; simpl; [reflexivity|].
  rewrite str_key_eqb.
  destruct (String.eqb_spec k x) as [Heq|Hne]; destruct (string_dec x k);
    simpl; congruence.
Qed.

Lemma map_fst_combine_eq {A B : Type} (a : list A) (b : list B) :
  List.length a = List.length b -> map fst (combine a b) = a.
Proof.
  revert b. induction a as [|x a IH]; intros [|y b]; simpl;
    try discriminate; [reflexivity|].
  intros [= H]. f_equal. now apply IH.
Qed.

Lemma group_values_str {V : Type} (k : string) (l : list (string * V)) :
  group_values str_cmp k l
  = map snd (filter (fun kv => String.eqb k (fst kv)) l).
Proof.
  unfold group_values. f_equal. apply filter_ext. intros kv.
  apply str_key_eqb.
Qed.

(** ** Counts of groups *)

Section GroupByTotals.
Context {K : Type} (cmp : K -> K -> comparison).
Hypothesis cmp_eq : forall a b, cmp a b = Eq <-> a = b.
Hypothesis cmp_antisym : forall a b, cmp b a = CompOpp (cmp a b).
Hypothesis cmp_trans :
  forall a b c, cmp a b = Lt -> cmp b c = Lt -> cmp a c = Lt.

Lemma sorted_keys_NoDup (l : list K) :
  StronglySorted (key_lt cmp) l -> NoDup l.
Proof.
  induction 1 as [|a l _ IH Ha]; constructor; [|assumption].
  intros Hin. rewrite Forall_forall in Ha.
  apply (key_lt_irrefl cmp cmp_eq a). now apply Ha.
Qed.

Lemma group_keys_NoDup (l : list K) : NoDup (group_keys cmp l).
Proof.
  apply sorted_keys_NoDup.
  now apply group_keys_sorted.
Qed.

Lemma count_key_cons (k x : K) (l : list K) :
  count_key cmp k (x :: l)
  = (if key_eqb cmp k x then 1 else 0) + count_key cmp k l.
Proof.
  unfold count_key. simpl. now destruct (key_eqb cmp k x).
Qed.

Lemma one_key_matches (x : K) (ks : list K) :
  NoDup ks -> In x ks ->
  sum_counts (map (fun k => if key_eqb cmp k x then 1 else 0) ks) = 1.
Proof.
  induction 1 as [|k ks Hnin Hnd IH]; [contradiction|].
  intros Hin. simpl.
  destruct (key_eqb cmp k x) eqn:Hk.
  - apply (key_eqb_eq cmp cmp_eq) in Hk. subst k.
    assert (Hz : sum_counts
                   (map (fun k => if key_eqb cmp k x then 1 else 0) ks) = 0).
    { clear IH Hnd Hin. induction ks as [|k ks IHk]; [reflexivity|].
      simpl. destruct (key_eqb cmp k x) eqn:Hk.
      - apply (key_eqb_eq cmp cmp_eq) in Hk. subst k.
        exfalso. apply Hnin. now left.
      - apply IHk. intros H. apply Hnin. now right. }
    now rewrite Hz.
  - destruct Hin as [->|Hin].
    + rewrite (proj2 (key_eqb_eq cmp cmp_eq x x) eq_refl) in Hk.
      discriminate.
    + simpl. now apply IH.
Qed.

Lemma sum_counts_add (f g : K -> nat) (ks : list K) :
  sum_counts (map (fun k => f k + g k) ks)
  = sum_counts (map f ks) + sum_counts (map g ks).
Proof.
  induction ks as [|k ks IH]; simpl; [reflexivity|]. rewrite IH. lia.
Qed.

(** The counts of the keys add up to the number of rows. *)
Lemma counts_add_up (ks l : list K) :
  NoDup ks -> (forall x, In x l -> In x ks) ->
  sum_counts (map (fun k => count_key cmp k l) ks) = List.length l.
Proof.
  intros Hnd. induction l as [|x l IH]; intros Hin.
  - clear Hin Hnd. induction ks as [|k ks IHk]; [reflexivity|].
    simpl. exact IHk.
  - rewrite (map_ext _ _ (fun k => count_key_cons k x l)).
    rewrite sum_counts_add, one_key_matches, IH.
    + reflexivity.
    + intros y Hy. apply Hin. now right.
    + assumption.
    + apply Hin. now left.
Qed.

Lemma groupby_size_total (l : list K) :
  sum_counts (map snd (groupby_size cmp l)) = List.length l.
Proof.
  unfold groupby_size. rewrite map_map. cbn [snd].
  apply counts_add_up; [apply group_keys_NoDup|].
  intros x Hx. now apply group_keys_In.
Qed.

Lemma groupby_size_positive (l : list K) :
  Forall (fun kn => 1 <= snd kn) (groupby_size cmp l).
Proof.
  apply Forall_forall. intros [k n] Hin. unfold groupby_size in Hin.
  apply in_map_iff in Hin. destruct Hin as [k' [[= <- <-] Hk]].
  cbn [snd]. apply count_key_pos; [assumption|].
  exact (proj1 (group_keys_In cmp cmp_eq _ _) Hk).
Qed.
End GroupByTotals.


(** ** The aggregates on the normalizer's output *)

Lemma keyed_Text {V : Type} (ks : list string) (vs : list V) :
  keyed (combine (map Text ks) vs) = combine ks vs.
Proof.
  revert vs. induction ks as [|k ks IH]; intros [|v vs]; simpl;
    try reflexivity. now rewrite IH.
Qed.

Lemma keyed2_Text (a b : list string) :
  keyed2 (combine (map Text a) (map Text b)) = combine a b.
Proof.
  revert b. induction a as [|x a IH]; intros [|y b]; simpl;
    try reflexivity. now rewrite IH.
Qed.

Lemma normalized_MappedRegion (l : list Provider) :
  getitem (mkDataFrame (kept_rows l) (normalized_columns l)) "MappedRegion"
  = Ok (map Text (resolved_regions l)).
Proof. unfold normalized_columns. destruct (name_form l); reflexivity. Qed.

Lemma normalized_StateCode (l : list Provider) :
  getitem (mkDataFrame (kept_rows l) (normalized_columns l)) "StateCode"
  = Ok (map Text (resolved_codes l)).
Proof. unfold normalized_columns. destruct (name_form l); reflexivity. Qed.

Lemma normalized_State (l : list Provider) :
  getitem (mkDataFrame (kept_rows l) (normalized_columns l)) "State"
  = Ok (map Text (states l)).
Proof.
  change (getitem (mkDataFrame (kept_rows l) (normalized_columns l)) "State")
    with (Ok (map State (kept_rows l))).
  now rewrite kept_States.
Qed.

Lemma normalized_has_usage (l : list Provider) :
  mem "Usage Time (mins)"
      (columns (mkDataFrame (kept_rows l) (normalized_columns l)))
  = true.
Proof. reflexivity. Qed.

Lemma resolved_regions_length (l : list Provider) :
  List.length (resolved_regions l) = List.length (kept_rows l).
Proof.
  unfold resolved_regions. now rewrite length_map, resolved_codes_length.
Qed.

Lemma state_counts_normalized (l : list Provider)
    (selected_region : option string) :
  state_counts (mkDataFrame (kept_rows l) (normalized_columns l))
               selected_region
  = Ok (let rows :=
          map (fun kn : string * nat =>
                 mkStateCount (fst kn) (snd kn)
                   (dict_getd state_code_to_name (fst kn) (fst kn))
                   (get_region (Text (fst kn))))
              (groupby_size str_cmp (resolved_codes l)) in
        if region_given selected_region
        then filter (fun s =>
                       mem (sc_StateCode s)
                           (dict_getd region_mapping
                              (match selected_region with
                               | Some r => r
                               | None => ""
                               end) []))
                    rows
        else rows).
Proof.
  unfold state_counts.
  rewrite normalized_StateCode, bind_Ok, texts_map_Text.
  destruct selected_region as [r|]; cbn [region_given]; [|reflexivity].
  destruct (truthy r); reflexivity.
Qed.

(** With a region selected the pie has one row per resolved state code. *)
Lemma regional_pie_by_state (l : list Provider) (r : string) :
  regional_pie (mkDataFrame (kept_rows l) (normalized_columns l)) (Some r)
  = Ok (inr (map (fun kn : string * nat =>
                    mkRegionState (fst kn) (snd kn)
                      (dict_getd state_code_to_name (fst kn) (fst kn)))
                 (groupby_size str_cmp (resolved_codes l)))).
Proof.
  unfold regional_pie, region_states.
  now rewrite normalized_StateCode, !bind_Ok, texts_map_Text.
Qed.

(** With no region selected it has one row per resolved region. *)
Lemma regional_pie_by_region (l : list Provider) :
  exists rc,
    regional_pie (mkDataFrame (kept_rows l) (normalized_columns l)) None
    = Ok (inl rc)
    /\ map (fun x => (rc_MappedRegion x, rc_NPI_Count x)) rc
       = groupby_size str_cmp (resolved_regions l).
Proof.
  unfold regional_pie, region_counts.
  rewrite normalized_MappedRegion, !bind_Ok, texts_map_Text.
  eexists. split; [reflexivity|].
  rewrite map_map. cbn [rc_MappedRegion rc_NPI_Count].
  transitivity (map (fun kn : string * nat => kn)
                    (groupby_size str_cmp (resolved_regions l)));
    [apply map_ext; now intros [g n] | apply map_id].
Qed.

Lemma usage_chart_by_state (l : list Provider) (r : string) :
  usage_chart (mkDataFrame (kept_rows l) (normalized_columns l)) (Some r)
  = Ok (inr (map (fun c =>
                    mkUsageByState c
                      (round1 (group_mean
                                 (usage_of c (resolved_codes l) (kept_rows l))))
                      (dict_getd state_code_to_name c c))
                 (group_keys str_cmp (resolved_codes l)))).
Proof.
  unfold usage_chart, usage_by_state.
  rewrite normalized_has_usage, normalized_StateCode, !bind_Ok.
  unfold usage_time. cbn [records]. rewrite keyed_Text.
  unfold groupby_agg.
  rewrite map_fst_combine_eq
    by (now rewrite length_map, resolved_codes_length).
  rewrite map_map. cbn [fst snd]. do 2 f_equal.
  apply map_ext. intros c. unfold usage_of. now rewrite group_values_str.
Qed.

Lemma usage_chart_by_region (l : list Provider) :
  usage_chart (mkDataFrame (kept_rows l) (normalized_columns l)) None
  = Ok (inl (map (fun g =>
                    mkUsageByRegion g
                      (round1 (group_mean
                                 (usage_of g (resolved_regions l)
                                    (kept_rows l)))))
                 (group_keys str_cmp (resolved_regions l)))).
Proof.
  unfold usage_chart, usage_by_region.
  rewrite normalized_has_usage, normalized_MappedRegion, !bind_Ok.
  unfold usage_time. cbn [records]. rewrite keyed_Text.
  unfold groupby_agg.
  rewrite map_fst_combine_eq
    by (now rewrite length_map, resolved_regions_length).
  rewrite map_map. cbn [fst snd]. do 2 f_equal.
  apply map_ext. intros c. unfold usage_of. now rewrite group_values_str.
Qed.

Lemma top_states_normalized (l : list Provider) :
  top_states (mkDataFrame (kept_rows l) (normalized_columns l))
  = Ok (firstn 10
          (sort_values_desc ts_Count
             (map (fun k =>
                     mkTopState (fst k) (snd k)
                       (count_key pair_cmp k (code_state_pairs l))
                       (dict_getd state_code_to_name (fst k) (fst k)))
                  (group_keys pair_cmp (code_state_pairs l))))).
Proof.
  unfold top_states.
  rewrite normalized_StateCode, bind_Ok, normalized_State, bind_Ok.
  rewrite keyed2_Text. fold (code_state_pairs l).
  unfold groupby_size. now rewrite map_map.
Qed.

(** On the normalizer's output no aggregate raises, and the page's
    aggregates are those of the single functions. *)
Lemma aggregation_stage_parts (l : list Provider)
    (selected_region : option string) :
  exists aggs,
    aggregation_stage (mkDataFrame (kept_rows l) (normalized_columns l))
                      selected_region
    = Ok aggs
    /\ state_counts (mkDataFrame (kept_rows l) (normalized_columns l))
                    selected_region
       = Ok (agg_state_counts aggs)
    /\ regional_pie (mkDataFrame (kept_rows l) (normalized_columns l))
                    selected_region
       = Ok (agg_regional_pie aggs)
    /\ usage_chart (mkDataFrame (kept_rows l) (normalized_columns l))
                   selected_region
       = Ok (agg_usage_chart aggs)
    /\ top_states (mkDataFrame (kept_rows l) (normalized_columns l))
       = Ok (agg_top_states aggs)
    /\ stats_df (mkDataFrame (kept_rows l) (normalized_columns l))
       = agg_stats_df aggs.
Proof.
  unfold aggregation_stage.
  rewrite state_counts_normalized, bind_Ok, top_states_normalized.
  destruct selected_region as [r|].
  - rewrite regional_pie_by_state, usage_chart_by_state, !bind_Ok.
    eexists. repeat split.
  - destruct (regional_pie_by_region l) as [rc [Hrc _]].
    rewrite Hrc, usage_chart_by_region, !bind_Ok.
    eexists. repeat split.
Qed.

(** The aggregates of a page whose filtered table starts with a state. *)
Lemma page_aggregates_parts (upload : list Provider)
    (selected_specialty choice : string) (page : Page) :
  dashboard upload selected_specialty choice = Some page ->
  starts_with_state (records (page_filtered_df page)) = true ->
  let rows := records (page_filtered_df page) in
  let processed_df := mkDataFrame (kept_rows rows) (normalized_columns rows) in
  exists aggs,
    page_aggregates page = Ok aggs
    /\ standardize_state_codes (page_filtered_df page) = Ok processed_df
    /\ state_counts processed_df (choose_region choice)
       = Ok (agg_state_counts aggs)
    /\ regional_pie processed_df (choose_region choice)
       = Ok (agg_regional_pie aggs)
    /\ usage_chart processed_df (choose_region choice)
       = Ok (agg_usage_chart aggs)
    /\ top_states processed_df = Ok (agg_top_states aggs)
    /\ stats_df processed_df = agg_stats_df aggs.
Proof.
  intros Hpage Hst rows processed_df. subst rows processed_df.
  rewrite (dashboard_aggregates _ _ _ _ Hpage).
  rewrite (dashboard_filtered _ _ _ _ Hpage) in Hst |- *.
  cbn [records frame] in Hst |- *.
  rewrite standardize_state_codes_rows, bind_Ok by assumption.
  destruct (aggregation_stage_parts
              (filter (matches selected_specialty (choose_region choice))
                      upload) (choose_region choice))
    as [aggs [Ha Hparts]].
  exists aggs. split; [exact Ha|]. split; [reflexivity | exact Hparts].
Qed.

(** ** Filter by uploaded region, charts by selection *)

Lemma truthy_nonempty (s : string) : truthy s = true <-> s <> "".
Proof.
  unfold truthy. rewrite negb_true_iff. apply String.eqb_neq.
Qed.

Lemma choose_region_Some (r : string) :
  r <> "All Regions" -> choose_region r = Some r.
Proof.
  intros Hr. unfold choose_region.
  now rewrite (proj2 (String.eqb_neq r "All Regions") Hr).
Qed.

Lemma matches_no_region (selected_specialty : string)
    (selected_region : option string) (p : Provider) :
  region_given selected_region = false ->
  matches selected_specialty selected_region p
  = String.eqb (Speciality p) selected_specialty.
Proof.
  intros H. unfold matches. rewrite H. apply andb_true_r.
Qed.

Lemma matches_region (selected_specialty r : string) (p : Provider) :
  r <> "" ->
  matches selected_specialty (Some r) p
  = String.eqb (Speciality p) selected_specialty && String.eqb (Region p) r.
Proof.
  intros Hr. apply truthy_nonempty in Hr.
  unfold matches, region_given. now rewrite Hr.
Qed.

Lemma dashboard_page (upload : list Provider)
    (selected_specialty choice : string) :
  selected_specialty <> "" ->
  exists page,
    dashboard upload selected_specialty choice = Some page
    /\ page_filtered_df page
       = frame (filter (matches selected_specialty (choose_region choice))
                       upload).
Proof.
  intros Hs. apply truthy_nonempty in Hs.
  unfold dashboard. rewrite filter_stage_rows by assumption.
  eexists. split; reflexivity.
Qed.

(** The page with a region chosen: the rows of the chosen specialty whose
    uploaded region is the chosen one, a pie and a usage chart by
    resolved state code. *)
Lemma page_of_region (upload : list Provider) (selected_specialty r : string) :
  selected_specialty <> "" -> r <> "" -> r <> "All Regions" ->
  exists page,
    dashboard upload selected_specialty r = Some page
    /\ records (page_filtered_df page)
       = filter (fun p => String.eqb (Speciality p) selected_specialty
                          && String.eqb (Region p) r) upload
    /\ (starts_with_state (records (page_filtered_df page)) = true ->
        let rows := records (page_filtered_df page) in
        exists aggs rs us,
          page_aggregates page = Ok aggs
          /\ agg_regional_pie aggs = inr rs
          /\ agg_usage_chart aggs = inr us
          /\ map (fun x => (rs_StateCode x, rs_NPI_Count x)) rs
             = map (fun c => (c, count_occ string_dec (resolved_codes rows) c))
                   (group_keys str_cmp (resolved_codes rows))
          /\ map (fun x => (us_StateCode x, us_UsageTime x)) us
             = map (fun c =>
                      (c, round1 (group_mean
                                    (usage_of c (resolved_codes rows)
                                       (kept_rows rows)))))
                   (group_keys str_cmp (resolved_codes rows))).
Proof.
  intros Hs Hr Hall.
  destruct (dashboard_page upload selected_specialty r Hs)
    as [page [Hpage Hf]].
  rewrite (choose_region_Some r Hall) in Hf.
  exists page. split; [exact Hpage|].
  split.
  { rewrite Hf. cbn [records frame]. apply filter_ext. intros p.
    now apply matches_region. }
  intros Hst rows.
  destruct (page_aggregates_parts _ _ _ _ Hpage Hst)
    as [aggs [Ha [_ [_ [Hpie [Hus _]]]]]].
  rewrite (choose_region_Some r Hall) in Hpie, Hus.
  rewrite regional_pie_by_state in Hpie.
  rewrite usage_chart_by_state in Hus.
  injection Hpie as Hpie. injection Hus as Hus.
  eexists aggs, _, _. split; [exact Ha|].
  split; [symmetry; exact Hpie|]. split; [symmetry; exact Hus|].
  fold rows. split.
  - unfold groupby_size. rewrite !map_map. cbn [rs_StateCode rs_NPI_Count
                                                fst snd].
    apply map_ext. intros c. now rewrite count_key_str.
  - rewrite map_map. reflexivity.
Qed.

(** The page with no region chosen: the rows of the chosen specialty, a
    pie and a usage chart by resolved region. *)
Lemma page_of_all_regions (upload : list Provider)
    (selected_specialty : string) :
  selected_specialty <> "" ->
  exists page,
    dashboard upload selected_specialty "All Regions" = Some page
    /\ records (page_filtered_df page)
       = filter (fun p => String.eqb (Speciality p) selected_specialty) upload
    /\ (starts_with_state (records (page_filtered_df page)) = true ->
        let rows := records (page_filtered_df page) in
        exists aggs rc u,
          page_aggregates page = Ok aggs
          /\ agg_regional_pie aggs = inl rc
          /\ agg_usage_chart aggs = inl u
          /\ map (fun x => (rc_MappedRegion x, rc_NPI_Count x)) rc
             = map (fun g =>
                      (g, count_occ string_dec (resolved_regions rows) g))
                   (group_keys str_cmp (resolved_regions rows))
          /\ map (fun x => (ur_MappedRegion x, ur_UsageTime x)) u
             = map (fun g =>
                      (g, round1 (group_mean
                                    (usage_of g (resolved_regions rows)
                                       (kept_rows rows)))))
                   (group_keys str_cmp (resolved_regions rows))).
Proof.
  intros Hs.
  destruct (dashboard_page upload selected_specialty "All Regions" Hs)
    as [page [Hpage Hf]].
  exists page. split; [exact Hpage|].
  split.
  { rewrite Hf. cbn [records frame]. apply filter_ext. intros p.
    now apply matches_no_region. }
  intros Hst rows.
  destruct (page_aggregates_parts _ _ _ _ Hpage Hst)
    as [aggs [Ha [_ [_ [Hpie [Hus _]]]]]].
  change (choose_region "All Regions") with (@None string) in Hpie, Hus.
  destruct (regional_pie_by_region (records (page_filtered_df page)))
    as [rc [Hrc Hkeys]].
  rewrite Hrc in Hpie. rewrite usage_chart_by_region in Hus.
  injection Hpie as Hpie. injection Hus as Hus.
  eexists aggs, rc, _. split; [exact Ha|].
  split; [symmetry; exact Hpie|]. split; [symmetry; exact Hus|].
  fold rows. split.
  - rewrite Hkeys. unfold groupby_size. apply map_ext. intros g.
    now rewrite count_key_str.
  - rewrite map_map. reflexivity.
Qed.

(** (C8, as the code has it) The Filter Stage keeps the rows whose
    uploaded [Region] value equals the chosen region (and whose specialty
    is the chosen one), whatever their state. In that run, with a region
    chosen, the pie and the mean-usage chart group the kept rows by
    resolved state code; they group by the region resolved from the state
    code in the run with no region chosen. *)
Theorem region_filter_raw_charts_by_selection (upload : list Provider)
    (selected_specialty r : string) :
  selected_specialty <> "" -> r <> "" -> r <> "All Regions" ->
  (exists page,
     dashboard upload selected_specialty r = Some page
     /\ records (page_filtered_df page)
        = filter (fun p => String.eqb (Speciality p) selected_specialty
                           && String.eqb (Region p) r) upload
     /\ (forall p, In p (records (page_filtered_df page))
                   <-> In p upload /\ Speciality p = selected_specialty
                       /\ Region p = r)
     /\ (starts_with_state (records (page_filtered_df page)) = true ->
         let rows := records (page_filtered_df page) in
         exists aggs rs us,
           page_aggregates page = Ok aggs
           /\ agg_regional_pie aggs = inr rs
           /\ agg_usage_chart aggs = inr us
           /\ map (fun x => (rs_StateCode x, rs_NPI_Count x)) rs
              = map (fun c => (c, count_occ string_dec (resolved_codes rows) c))
                    (group_keys str_cmp (resolved_codes rows))
           /\ map (fun x => (us_StateCode x, us_UsageTime x)) us
              = map (fun c =>
                       (c, round1 (group_mean
                                     (usage_of c (resolved_codes rows)
                                        (kept_rows rows)))))
                    (group_keys str_cmp (resolved_codes rows))))
  /\ (exists page,
        dashboard upload selected_specialty "All Regions" = Some page
        /\ records (page_filtered_df page)
           = filter (fun p => String.eqb (Speciality p) selected_specialty)
                    upload
        /\ (starts_with_state (records (page_filtered_df page)) = true ->
            let rows := records (page_filtered_df page) in
            exists aggs rc u,
              page_aggregates page = Ok aggs
              /\ agg_regional_pie aggs = inl rc
              /\ agg_usage_chart aggs = inl u
              /\ map (fun x => (rc_MappedRegion x, rc_NPI_Count x)) rc
                 = map (fun g =>
                          (g, count_occ string_dec (resolved_regions rows) g))
                       (group_keys str_cmp (resolved_regions rows))
              /\ map (fun x => (ur_MappedRegion x, ur_UsageTime x)) u
                 = map (fun g =>
                          (g, round1 (group_mean
                                        (usage_of g (resolved_regions rows)
                                           (kept_rows rows)))))
                       (group_keys str_cmp (resolved_regions rows)))).
Proof.
  intros Hs Hr Hall. split.
  - destruct (page_of_region upload selected_specialty r Hs Hr Hall)
      as [page [Hpage [Hrec Haggs]]].
    exists page. split; [exact Hpage|]. split; [exact Hrec|].
    split; [|exact Haggs].
    intros p. rewrite Hrec, filter_In, andb_true_iff, !String.eqb_eq.
    reflexivity.
  - exact (page_of_all_regions upload selected_specialty Hs).
Qed.

(** ** Top states *)

Lemma pair_key_eqb (k q : string * string) :
  key_eqb pair_cmp k q
  = String.eqb (fst k) (fst q) && String.eqb (snd k) (snd q).
Proof.
  destruct (key_eqb pair_cmp k q) eqn:H.
  - apply (key_eqb_eq pair_cmp pair_cmp_eq) in H. subst.
    now rewrite !String.eqb_refl.
  - symmetry. apply not_true_is_false. intros Hb.
    apply andb_true_iff in Hb. destruct Hb as [H1 H2].
    apply String.eqb_eq in H1, H2.
    assert (Heq : k = q) by (destruct k, q; simpl in *; congruence).
    apply (key_eqb_eq pair_cmp pair_cmp_eq) in Heq. congruence.
Qed.

Lemma count_key_pair (k : string * string) (pairs : list (string * string)) :
  count_key pair_cmp k pairs = rows_with k pairs.
Proof.
  unfold count_key, rows_with. f_equal. apply filter_ext. intros q.
  apply pair_key_eqb.
Qed.

Lemma top_state_rows_keys (f : string * string -> nat)
    (ks : list (string * string)) :
  map ts_key
    (map (fun k => mkTopState (fst k) (snd k) (f k)
                     (dict_getd state_code_to_name (fst k) (fst k))) ks)
  = ks.
Proof.
  rewrite map_map. transitivity (map (fun k : string * string => k) ks).
  - apply map_ext. now intros [c s].
  - apply map_id.
Qed.

(** The table that is sorted into the listing is the same for any two
    orders of the same rows: no order of first appearance is left for the
    sort to keep. *)
Lemma grouped_states_forget_row_order (pairs1 pairs2 : list (string * string)) :
  Permutation pairs1 pairs2 ->
  groupby_size pair_cmp pairs1 = groupby_size pair_cmp pairs2.
Proof.
  apply (groupby_size_perm pair_cmp pair_cmp_eq pair_cmp_antisym
           pair_cmp_trans).
Qed.

(** The listing is computed from the grouped table alone. *)
Lemma top_states_grouped (l : list Provider) :
  top_states (mkDataFrame (kept_rows l) (normalized_columns l))
  = Ok (firstn 10
          (sort_values_desc ts_Count
             (map (fun kn =>
                     mkTopState (fst (fst kn)) (snd (fst kn)) (snd kn)
                       (dict_getd state_code_to_name (fst (fst kn))
                          (fst (fst kn))))
                  (groupby_size pair_cmp (code_state_pairs l))))).
Proof.
  unfold top_states.
  rewrite normalized_StateCode, bind_Ok, normalized_State, bind_Ok.
  rewrite keyed2_Text. reflexivity.
Qed.

(** Two tables with the same rows in another order have the same
    listing. *)
Lemma top_states_forget_row_order (l1 l2 : list Provider) :
  Permutation (code_state_pairs l1) (code_state_pairs l2) ->
  top_states (mkDataFrame (kept_rows l1) (normalized_columns l1))
  = top_states (mkDataFrame (kept_rows l2) (normalized_columns l2)).
Proof.
  intros H. rewrite !top_states_grouped.
  now rewrite (grouped_states_forget_row_order _ _ H).
Qed.

(** (C2, as the code has it) The listing holds ten (or all, if fewer)
    groups of rows with the same resolved code and state, ordered by
    count descending: every group, listed or not, has at most the count
    of every group listed before it. Which of two groups with the same
    count comes first is left to the sort. *)
Theorem top_states_order (l : list Provider) :
  starts_with_state l = true ->
  exists processed_df top rest,
    standardize_state_codes (frame l) = Ok processed_df
    /\ top_states processed_df = Ok top
    /\ List.length top
       = Nat.min 10 (List.length (group_keys pair_cmp (code_state_pairs l)))
    /\ Permutation (map ts_key (top ++ rest))
                   (group_keys pair_cmp (code_state_pairs l))
    /\ (forall k, In k (map ts_key (top ++ rest))
                  <-> In k (code_state_pairs l))
    /\ StronglySorted (fun a b => ts_Count b <= ts_Count a) (top ++ rest)
    /\ (forall r, In r (top ++ rest) ->
          ts_Count r = rows_with (ts_key r) (code_state_pairs l)
          /\ 0 < ts_Count r
          /\ ts_StateName r
             = dict_getd state_code_to_name (ts_StateCode r) (ts_StateCode r)).
Proof.
  intros Hst.
  set (pairs := code_state_pairs l).
  set (mk' := fun k : string * string =>
                mkTopState (fst k) (snd k) (count_key pair_cmp k pairs)
                  (dict_getd state_code_to_name (fst k) (fst k))).
  set (full := sort_values_desc ts_Count
                 (map mk' (group_keys pair_cmp pairs))).
  assert (Htop : top_states (mkDataFrame (kept_rows l) (normalized_columns l))
                 = Ok (firstn 10 full)).
  { apply top_states_normalized. }
  assert (Hperm : Permutation full (map mk' (group_keys pair_cmp pairs))).
  { apply sort_values_desc_perm. }
  assert (Hkeys : Permutation (map ts_key full) (group_keys pair_cmp pairs)).
  { rewrite Hperm. unfold mk'. now rewrite top_state_rows_keys. }
  exists (mkDataFrame (kept_rows l) (normalized_columns l)), (firstn 10 full),
         (skipn 10 full).
  rewrite firstn_skipn.
  split; [now apply standardize_state_codes_rows|].
  split; [exact Htop|].
  split.
  { rewrite length_firstn. f_equal.
    rewrite <- (length_map ts_key full). now apply Permutation_length. }
  split; [exact Hkeys|].
  split.
  { intros k. rewrite <- (group_keys_In pair_cmp pair_cmp_eq k pairs).
    split; apply Permutation_in; [exact Hkeys | now symmetry]. }
  split; [apply sort_values_desc_ordered|].
  intros r Hr.
  apply (Permutation_in _ Hperm) in Hr. apply in_map_iff in Hr.
  destruct Hr as [[c s] [<- Hk]]. unfold mk', ts_key. cbn.
  split; [apply count_key_pair|].
  split; [|reflexivity].
  apply (count_key_pos pair_cmp pair_cmp_eq).
  exact (proj1 (group_keys_In pair_cmp pair_cmp_eq _ _) Hk).
Qed.

(** ** Usage-time statistics *)

(** The depth bound of [pairwise_sum] is never reached: any bound from
    the length of the array on gives the same sum. *)
Lemma pairwise_sum_fuel (fuel fuel' : nat) (a : list float) :
  List.length a <= fuel -> List.length a <= fuel' ->
  pairwise_sum fuel a = pairwise_sum fuel' a.
Proof.
  revert fuel' a. induction fuel as [|fuel IH]; intros fuel' a H H'.
  - destruct a; [|simpl in H; lia]. now destruct fuel'.
  - destruct fuel' as [|fuel'].
    + destruct a; [|simpl in H'; lia]. reflexivity.
    + cbn [pairwise_sum].
      destruct (Nat.ltb_spec (List.length a) 8) as [|H8]; [reflexivity|].
      destruct (Nat.leb_spec (List.length a) 128) as [|H128]; [reflexivity|].
      set (n := List.length a) in *.
      pose proof (Nat.div_mod_eq n 2) as Hd.
      pose proof (Nat.mod_upper_bound n 2 ltac:(lia)) as Hm.
      pose proof (Nat.div_mod_eq (n / 2) 8) as Hd8.
      pose proof (Nat.mod_upper_bound (n / 2) 8 ltac:(lia)) as Hm8.
      set (n2 := n / 2 - (n / 2) mod 8) in *.
      assert (H1 : List.length (firstn n2 a) < n).
      { rewrite length_firstn. fold n. lia. }
      assert (H2 : List.length (skipn n2 a) < n).
      { rewrite length_skipn. fold n. lia. }
      rewrite (IH fuel' (firstn n2 a)) by lia.
      rewrite (IH fuel' (skipn n2 a)) by lia.
      reflexivity.
Qed.

(** [round_half_even] answers with a nearest integer. *)
Lemma round_half_even_nearest (num den : Z) :
  (0 < den)%Z ->
  (Z.abs (2 * num - 2 * round_half_even num den * den) <= den)%Z.
Proof.
  intros Hden. unfold round_half_even.
  pose proof (Z.div_mod num den ltac:(lia)) as Hdm.
  pose proof (Z.mod_pos_bound num den Hden) as Hb.
  destruct (Z.compare_spec (2 * (num mod den)) den);
    [destruct (Z.even (num / den))| |]; nia.
Qed.

(** [format_f] prints the value of a finite float to the nearest
    multiple of [10^-d]: with the float [m * 2^e] and [e < 0], the
    printed integer [n] of units [10^-d] has [|m * 10^d - n * 2^-e|] at
    most half of [2^-e]. *)
Lemma scaled_nearest (d : nat) (m : positive) (e : Z) :
  (e < 0)%Z ->
  (Z.abs (2 * (Zpos m * 10 ^ Z.of_nat d) - 2 * scaled d m e * 2 ^ (- e))
   <= 2 ^ (- e))%Z.
Proof.
  intros He. unfold scaled.
  destruct (Z.leb_spec 0 e); [lia|].
  apply round_half_even_nearest. apply Z.pow_pos_nonneg; lia.
Qed.


(** * Further properties of the code *)

(** ** The reference tables and [get_region] *)

(** (X1) The reversed table of line 90 loses no entry, and for every
    state name it holds, the code it gives has that name in the
    code-to-name table. *)
Theorem name_code_name_roundtrip :
  List.length state_name_to_code = List.length state_code_to_name
  /\ forall name,
       In name (keys state_name_to_code) ->
       exists code,
         dict_get state_name_to_code name = Some code
         /\ dict_get state_code_to_name code = Some name.
Proof.
  split; [reflexivity|].
  intros name Hin. vm_compute in Hin.
  repeat (destruct Hin as [Hin|Hin];
          [subst name; eexists; split; vm_compute; reflexivity|]).
  contradiction.
Qed.

Lemma get_region_in_range (items : list (string * list string)) (c : text) :
  In (get_region_in items c) (map fst items ++ ["Unknown"]).
Proof.
  induction items as [|[r states] items IH]; simpl; [now left|].
  destruct (cell_in c states); [now left | now right].
Qed.

Lemma get_region_in_unknown (items : list (string * list string))
    (c : string) :
  Forall (fun rs => fst rs <> "Unknown") items ->
  get_region_in items (Text c) = "Unknown"
  <-> filter (fun rs => mem c (snd rs)) items = [].
Proof.
  induction 1 as [|[r states] items Hr _ IH]; simpl; [tauto|].
  destruct (mem c states).
  - split; [intros Heq; now elim Hr | discriminate].
  - exact IH.
Qed.

(** (X2) [get_region] answers ["Unknown"] exactly when no member list
    holds the code, and never anything but one of the four region names
    or ["Unknown"]; a blank cell gets ["Unknown"]. *)
Theorem get_region_unknown_iff (c : string) :
  (get_region c = "Unknown" <-> regions_of c = [])
  /\ In (get_region c) region_names
  /\ get_region NaN = "Unknown".
Proof.
  split; [|split].
  - unfold get_region, regions_of.
    rewrite get_region_in_unknown.
    + split; intros H; [now rewrite H|].
      destruct (filter (fun rs => mem c (snd rs)) region_mapping);
        [reflexivity | discriminate].
    + vm_compute. repeat constructor; discriminate.
  - exact (get_region_in_range region_mapping c).
  - reflexivity.
Qed.

(** Every code of a member list gets the region of that list. *)
Lemma get_region_member (r : string) (members : list string) (c : string) :
  dict_get region_mapping r = Some members -> In c members ->
  get_region c = r.
Proof.
  intros Hget Hin. apply dict_get_In in Hget. vm_compute in Hget.
  repeat (destruct Hget as [Hget|Hget];
          [injection Hget as <- <-; vm_compute in Hin;
           repeat (destruct Hin as [Hin|Hin];
                   [subst c; vm_compute; reflexivity|]);
           contradiction|]).
  contradiction.
Qed.

(** (X3) A code that is in the member list of a region gets that region
    from [get_region]: no code is shadowed by an earlier list. *)
Theorem get_region_complete (r : string) (members : list string)
    (c : string) :
  dict_get region_mapping r = Some members -> In c members ->
  get_region c = r /\ regions_of c = [r].
Proof.
  intros Hget Hin. split; [now apply (get_region_member r members)|].
  apply dict_get_In in Hget. vm_compute in Hget.
  repeat (destruct Hget as [Hget|Hget];
          [injection Hget as <- <-; vm_compute in Hin;
           repeat (destruct Hin as [Hin|Hin];
                   [subst c; vm_compute; reflexivity|]);
           contradiction|]).
  contradiction.
Qed.

Lemma name_not_a_code (name : string) :
  In name (keys state_name_to_code) -> get_region name = "Unknown".
Proof.
  intros Hin. vm_compute in Hin.
  repeat (destruct Hin as [Hin|Hin]; [subst name; vm_compute; reflexivity|]).
  contradiction.
Qed.

(** (X4) Resolving a full state name to its code and then to a region
    gives one of the four regions for every name of the table except
    ["New Mexico"], whose code ["_NM"] is in no list: it gets
    ["Unknown"]. *)
Theorem name_resolves_to_region (name : string) :
  In name (keys state_name_to_code) ->
  (get_region (dict_getd state_name_to_code name name) = "Unknown"
   <-> name = "New Mexico").
Proof.
  intros Hin. vm_compute in Hin.
  repeat (destruct Hin as [Hin|Hin];
          [subst name; vm_compute; split; intros H;
           first [reflexivity | discriminate H]|]).
  contradiction.
Qed.

(** ** The selection *)

(** (X6) With the sentinel ["All Regions"], and also with an empty
    region string, no region filter is applied: the page holds exactly
    the rows of the selected specialty, whatever their region, in the
    order of the upload. A region that is itself named ["All Regions"]
    can therefore not be selected. *)
Theorem no_region_keeps_specialty_rows (upload : list Provider)
    (selected_specialty choice : string) :
  selected_specialty <> "" ->
  choice = "All Regions" \/ choice = "" ->
  exists page,
    dashboard upload selected_specialty choice = Some page
    /\ records (page_filtered_df page)
       = filter (fun p => String.eqb (Speciality p) selected_specialty) upload
    /\ forall p, In p (records (page_filtered_df page))
                 <-> In p upload /\ Speciality p = selected_specialty.
Proof.
  intros Hs Hc. apply truthy_nonempty in Hs.
  assert (Hr : region_given (choose_region choice) = false).
  { destruct Hc as [-> | ->]; reflexivity. }
  unfold dashboard. rewrite filter_stage_rows by assumption.
  eexists. split; [reflexivity|]. cbn [page_filtered_df records frame].
  assert (Hf : filter (matches selected_specialty (choose_region choice)) upload
               = filter (fun p => String.eqb (Speciality p) selected_specialty)
                        upload).
  { apply filter_ext. intros p. now apply matches_no_region. }
  rewrite Hf. split; [reflexivity|].
  intros p. rewrite filter_In, String.eqb_eq. reflexivity.
Qed.

(** ** The selectors *)

Lemma insert_sorted_In (x y : string) (l : list string) :
  In y (insert_sorted x l) <-> y = x \/ In y l.
Proof.
  induction l as [|h t IH]; simpl; [intuition|].
  destruct (str_cmp x h); simpl; rewrite ?IH; intuition.
Qed.

Lemma sorted_In (y : string) (l : list string) : In y (sorted l) <-> In y l.
Proof.
  induction l as [|x l IH]; simpl; [reflexivity|].
  rewrite insert_sorted_In, IH. intuition.
Qed.

Lemma insert_sorted_strict (x : string) (l : list string) :
  StronglySorted (key_lt str_cmp) l -> ~ In x l ->
  StronglySorted (key_lt str_cmp) (insert_sorted x l).
Proof.
  induction l as [|h t IH]; simpl; intros Hs Hnin.
  - repeat constructor.
  - inversion Hs as [|? ? Hst Hall]; subst.
    destruct (str_cmp x h) eqn:Hc.
    + apply str_cmp_eq in Hc. exfalso. apply Hnin. now left.
    + constructor; [assumption|]. constructor; [assumption|].
      apply Forall_forall. intros z Hz. rewrite Forall_forall in Hall.
      apply (str_cmp_trans x h z); [assumption | now apply Hall].
    + constructor; [apply IH; [assumption | intuition]|].
      apply Forall_forall. intros z Hz. apply insert_sorted_In in Hz.
      destruct Hz as [->|Hz].
      * unfold key_lt. rewrite str_cmp_antisym, Hc. reflexivity.
      * rewrite Forall_forall in Hall. now apply Hall.
Qed.

Lemma sorted_strict (l : list string) :
  NoDup l -> StronglySorted (key_lt str_cmp) (sorted l).
Proof.
  induction 1 as [|x l Hnin _ IH]; simpl; [constructor|].
  apply insert_sorted_strict; [assumption|].
  intros Hin. apply Hnin. now apply sorted_In.
Qed.

Lemma strict_NoDup (l : list string) :
  StronglySorted (key_lt str_cmp) l -> NoDup l.
Proof.
  apply (sorted_keys_NoDup str_cmp str_cmp_eq).
Qed.

(** (X7) On an upload whose specialty and region cells are text, the
    specialty selector offers exactly the specialties that occur, in
    strictly ascending order, so each once. The region selector offers
    the sentinel ["All Regions"] and after it exactly the regions that
    occur, these in strictly ascending order; its list repeats an option
    exactly when a row has the region ["All Regions"], which is then
    offered twice. *)
Theorem selector_options (upload : list Provider) :
  (forall s, In s (specialties (frame upload))
             <-> exists p, In p upload /\ Speciality p = s)
  /\ StronglySorted (key_lt str_cmp) (specialties (frame upload))
  /\ region_options (frame upload) = "All Regions" :: regions (frame upload)
  /\ (forall r, In r (regions (frame upload))
                <-> exists p, In p upload /\ Region p = r)
  /\ StronglySorted (key_lt str_cmp) (regions (frame upload))
  /\ (NoDup (region_options (frame upload))
      <-> ~ exists p, In p upload /\ Region p = "All Regions").
Proof.
  assert (Hreg : forall r, In r (regions (frame upload))
                           <-> exists p, In p upload /\ Region p = r).
  { intros r. unfold regions. cbn [records frame].
    rewrite sorted_In, unique_In, in_map_iff.
    split; intros [p [H1 H2]]; exists p; tauto. }
  assert (Hs : StronglySorted (key_lt str_cmp) (regions (frame upload))).
  { apply sorted_strict, unique_NoDup. }
  split; [|split; [|split; [|split; [|split]]]].
  - intros s. unfold specialties. cbn [records frame].
    rewrite sorted_In, unique_In, in_map_iff.
    split; intros [p [H1 H2]]; exists p; tauto.
  - apply sorted_strict, unique_NoDup.
  - reflexivity.
  - exact Hreg.
  - exact Hs.
  - unfold region_options. rewrite <- Hreg. split.
    + intros H. now inversion H.
    + intros H. constructor; [exact H | now apply strict_NoDup].
Qed.

(** ** The page on a table with rows *)

Lemma starts_with_state_false (l : list Provider) :
  l <> [] -> starts_with_state l = false ->
  standardize_state_codes (frame l) = Raise TypeError.
Proof.
  intros Hne Hst. destruct l as [|p t]; [contradiction|].
  apply standardize_state_codes_blank.
  cbn [starts_with_state] in Hst. unfold has_state in Hst.
  destruct (State p); [discriminate | reflexivity].
Qed.

(** A first row with a blank state cell ends the run in [TypeError]. *)
Lemma page_blank_first_raises (upload : list Provider)
    (selected_specialty choice : string) (page : Page) :
  dashboard upload selected_specialty choice = Some page ->
  records (page_filtered_df page) <> [] ->
  starts_with_state (records (page_filtered_df page)) = false ->
  standardize_state_codes (page_filtered_df page) = Raise TypeError
  /\ page_aggregates page = Raise TypeError.
Proof.
  intros Hpage Hne Hst.
  rewrite (dashboard_aggregates _ _ _ _ Hpage).
  rewrite (dashboard_filtered _ _ _ _ Hpage) in Hne, Hst |- *.
  cbn [records frame] in Hne, Hst.
  rewrite (starts_with_state_false _ Hne Hst). split; reflexivity.
Qed.

(** (X8) Whenever the Filter Stage leaves at least one row and the first
    of them has a state, the normalizer keeps the rows that have a state
    and every aggregate is computed: none of them raises, whatever the
    states, regions and usage times of the rows. When the state cell of
    the first row is blank, the normalizer raises [TypeError] and no
    aggregate is computed. *)
Theorem aggregates_computed_on_rows (upload : list Provider)
    (selected_specialty choice : string) (page : Page) :
  dashboard upload selected_specialty choice = Some page ->
  records (page_filtered_df page) <> [] ->
  (starts_with_state (records (page_filtered_df page)) = true ->
   exists processed_df aggs,
     standardize_state_codes (page_filtered_df page) = Ok processed_df
     /\ records processed_df
        = filter has_state (records (page_filtered_df page))
     /\ records processed_df <> []
     /\ page_aggregates page = Ok aggs)
  /\ (starts_with_state (records (page_filtered_df page)) = false ->
      standardize_state_codes (page_filtered_df page) = Raise TypeError
      /\ page_aggregates page = Raise TypeError).
Proof.
  intros Hpage Hrows. split.
  - intros Hst.
    destruct (page_aggregates_parts _ _ _ _ Hpage Hst)
      as [aggs [Haggs [Hpr _]]].
    eexists. exists aggs. split; [exact Hpr|].
    split; [reflexivity|]. split; [|exact Haggs].
    cbn [records]. destruct (records (page_filtered_df page)) as [|p t];
      [discriminate|].
    cbn [starts_with_state] in Hst. unfold kept_rows. cbn [filter].
    rewrite Hst. discriminate.
  - now apply (page_blank_first_raises upload selected_specialty choice).
Qed.

(** (X9) On an upload whose specialty cells are text, every non-empty
    specialty that the selector offers has a row: with no region
    selected the filtered table is not empty, so only a region selection
    can leave the page without rows. The aggregates are then computed
    when the first of these rows has a state, and the run ends in
    [TypeError] when its state cell is blank. *)
Theorem offered_specialty_has_rows (upload : list Provider) (s : string) :
  In s (specialties (frame upload)) -> s <> "" ->
  exists page,
    dashboard upload s "All Regions" = Some page
    /\ records (page_filtered_df page)
       = filter (fun p => String.eqb (Speciality p) s) upload
    /\ records (page_filtered_df page) <> []
    /\ (starts_with_state (records (page_filtered_df page)) = true ->
        exists aggs, page_aggregates page = Ok aggs)
    /\ (starts_with_state (records (page_filtered_df page)) = false ->
        page_aggregates page = Raise TypeError).
Proof.
  intros Hin Hs.
  assert (Hrow : exists p, In p upload /\ Speciality p = s).
  { unfold specialties in Hin. cbn [records frame] in Hin.
    apply sorted_In, unique_In, in_map_iff in Hin.
    destruct Hin as [p [H1 H2]]. exists p. tauto. }
  destruct Hrow as [p [Hp Hsp]].
  destruct (dashboard_page upload s "All Regions" Hs) as [page [Hpage Hf]].
  assert (Hrec : records (page_filtered_df page)
                 = filter (fun p => String.eqb (Speciality p) s) upload).
  { rewrite Hf. cbn [records frame]. apply filter_ext. intros q.
    now apply matches_no_region. }
  assert (Hrows : records (page_filtered_df page) <> []).
  { rewrite Hrec. intros Hnil.
    assert (Hinf : In p (filter (fun p => String.eqb (Speciality p) s)
                                upload)).
    { apply filter_In. split; [assumption | now apply String.eqb_eq]. }
    rewrite Hnil in Hinf. contradiction. }
  exists page. split; [exact Hpage|]. split; [exact Hrec|].
  split; [exact Hrows|]. split.
  - intros Hst.
    destruct (page_aggregates_parts _ _ _ _ Hpage Hst) as [aggs [Haggs _]].
    now exists aggs.
  - intros Hst.
    now apply (page_blank_first_raises upload s "All Regions" page).
Qed.

(** ** State counts *)

Lemma map_sorted {A B : Type} (R : A -> A -> Prop) (S : B -> B -> Prop)
    (f : A -> B) (l : list A) :
  (forall a b, R a b -> S (f a) (f b)) ->
  StronglySorted R l -> StronglySorted S (map f l).
Proof.
  intros Hf. induction 1 as [|a l _ IH Ha]; simpl; constructor;
    [assumption|].
  apply Forall_forall. intros y Hy. apply in_map_iff in Hy.
  destruct Hy as [x [<- Hx]]. rewrite Forall_forall in Ha.
  apply Hf. now apply Ha.
Qed.

Lemma sum_counts_filter {A : Type} (f : A -> nat) (p : A -> bool)
    (l : list A) :
  sum_counts (map f (filter p l)) <= sum_counts (map f l).
Proof.
  unfold sum_counts. induction l as [|x l IH]; simpl; [lia|].
  destruct (p x); simpl; lia.
Qed.

Lemma kept_rows_length (l : list Provider) :
  List.length (kept_rows l) <= List.length l.
Proof. apply filter_length_le. Qed.

(** (X10) With no region selected, the state counts have one row per
    resolved state code, in strictly ascending order of the code, every
    count at least 1, and the counts add up to the number of filtered
    rows that have a state: to the number of filtered rows when no state
    cell is blank, and to less otherwise. *)
Theorem state_counts_total (l : list Provider) :
  starts_with_state l = true ->
  exists processed_df sc,
    standardize_state_codes (frame l) = Ok processed_df
    /\ state_counts processed_df None = Ok sc
    /\ sum_counts (map sc_NPI_Count sc) = List.length (filter has_state l)
    /\ sum_counts (map sc_NPI_Count sc) <= List.length l
    /\ ((forall p, In p l -> State p <> NaN) ->
        sum_counts (map sc_NPI_Count sc) = List.length l)
    /\ Forall (fun s => 1 <= sc_NPI_Count s) sc
    /\ StronglySorted
         (fun a b => str_cmp (sc_StateCode a) (sc_StateCode b) = Lt) sc
    /\ forall c, In c (map sc_StateCode sc) <-> In c (resolved_codes l).
Proof.
  intros Hst. eexists. eexists.
  split; [now apply standardize_state_codes_rows|].
  split; [apply state_counts_normalized|].
  cbn [region_given]. cbv zeta.
  assert (Hsum : sum_counts
                   (map sc_NPI_Count
                      (map (fun kn : string * nat =>
                              mkStateCount (fst kn) (snd kn)
                                (dict_getd state_code_to_name (fst kn) (fst kn))
                                (get_region (Text (fst kn))))
                           (groupby_size str_cmp (resolved_codes l))))
                 = List.length (kept_rows l)).
  { rewrite map_map. cbn [sc_NPI_Count].
    rewrite <- (map_map snd (fun n => n)), map_id.
    rewrite (groupby_size_total str_cmp str_cmp_eq str_cmp_antisym
               str_cmp_trans).
    apply resolved_codes_length. }
  split; [exact Hsum|].
  split; [rewrite Hsum; apply kept_rows_length|].
  split.
  { intros Hall. rewrite Hsum. f_equal. apply kept_rows_all. intros p Hp.
    specialize (Hall p Hp). unfold has_state.
    destruct (State p); [reflexivity | contradiction]. }
  split.
  { apply Forall_forall. intros s Hs. apply in_map_iff in Hs.
    destruct Hs as [kn [<- Hkn]]. cbn [sc_NPI_Count].
    pose proof (groupby_size_positive str_cmp str_cmp_eq
                  (resolved_codes l)) as Hpos.
    rewrite Forall_forall in Hpos. now apply Hpos. }
  split.
  { unfold groupby_size. rewrite map_map.
    apply (map_sorted (key_lt str_cmp)); [intros a b Hab; exact Hab|].
    apply (group_keys_sorted str_cmp str_cmp_eq str_cmp_antisym
             str_cmp_trans). }
  intros c. unfold groupby_size. rewrite !map_map. cbn [sc_StateCode fst].
  rewrite map_id. apply (group_keys_In str_cmp str_cmp_eq).
Qed.

(** (X11) With a region selected, the state counts keep the states of
    the member list of that region only: every row left has its code in
    the list and the selected region as its region. A selected region
    that is no key of [region_mapping] leaves no row. *)
Theorem state_counts_of_region (l : list Provider) (r : string) :
  starts_with_state l = true -> r <> "" ->
  exists processed_df sc,
    standardize_state_codes (frame l) = Ok processed_df
    /\ state_counts processed_df (Some r) = Ok sc
    /\ (forall s, In s sc ->
          In (sc_StateCode s) (resolved_codes l)
          /\ In (sc_StateCode s) (dict_getd region_mapping r [])
          /\ sc_Region s = r)
    /\ (dict_get region_mapping r = None -> sc = [])
    /\ sum_counts (map sc_NPI_Count sc) <= List.length l.
Proof.
  intros Hst Hr. apply truthy_nonempty in Hr.
  eexists. eexists.
  split; [now apply standardize_state_codes_rows|].
  split; [apply state_counts_normalized|].
  cbn [region_given]. rewrite Hr. cbv zeta.
  split; [|split].
  - intros s Hs. apply filter_In in Hs. destruct Hs as [Hs Hmem].
    apply mem_In in Hmem. apply in_map_iff in Hs.
    destruct Hs as [[c n] [<- Hcn]]. cbn [sc_StateCode sc_Region fst] in *.
    split; [|split; [assumption|]].
    + unfold groupby_size in Hcn. apply in_map_iff in Hcn.
      destruct Hcn as [c' [[= <- _] Hc']].
      exact (proj1 (group_keys_In str_cmp str_cmp_eq _ _) Hc').
    + unfold dict_getd in Hmem.
      destruct (dict_get region_mapping r) as [members|] eqn:Hget;
        [|contradiction].
      now apply (get_region_member r members).
  - intros Hnone. unfold dict_getd. rewrite Hnone.
    induction (map _ (groupby_size str_cmp (resolved_codes l)));
      [reflexivity | assumption].
  - eapply Nat.le_trans; [apply sum_counts_filter|].
    rewrite map_map. cbn [sc_NPI_Count].
    rewrite <- (map_map snd (fun n => n)), map_id.
    rewrite (groupby_size_total str_cmp str_cmp_eq str_cmp_antisym
               str_cmp_trans).
    rewrite resolved_codes_length. apply kept_rows_length.
Qed.

(** ** Region counts *)


(** ** Dataset overview *)

Lemma unique_length (l : list string) :
  List.length (unique l) <= List.length l.
Proof.
  apply NoDup_incl_length; [apply unique_NoDup|].
  intros x Hx. now apply unique_In.
Qed.

Lemma resolved_codes_map (l : list Provider) :
  exists f, resolved_codes l = map f (states l)
            /\ (name_form l = false -> forall s, f s = s).
Proof.
  unfold resolved_codes. destruct (name_form l).
  - exists (fun x => dict_getd state_name_to_code x x).
    split; [reflexivity | discriminate].
  - exists (fun x => x). split; [now rewrite map_id | reflexivity].
Qed.

(** (X13) The map never shows more states than the overview counts:
    with no region selected the state counts have at most as many rows
    as "States Represented", which is at most "Total Providers", the
    number of filtered rows; in the code form the first two are equal. *)
Theorem overview_bounds_state_counts (l : list Provider) :
  starts_with_state l = true ->
  exists processed_df sc,
    standardize_state_codes (frame l) = Ok processed_df
    /\ state_counts processed_df None = Ok sc
    /\ total_providers (dataset_overview (frame l)) = List.length l
    /\ List.length sc <= total_states (dataset_overview (frame l))
    /\ total_states (dataset_overview (frame l))
       <= total_providers (dataset_overview (frame l))
    /\ (name_form l = false ->
        List.length sc = total_states (dataset_overview (frame l))).
Proof.
  intros Hst. eexists. eexists.
  split; [now apply standardize_state_codes_rows|].
  split; [apply state_counts_normalized|].
  cbn [region_given]. cbv zeta.
  unfold dataset_overview, len.
  cbn [total_providers total_states records frame].
  fold (states l).
  split; [reflexivity|].
  unfold groupby_size. rewrite !length_map.
  destruct (resolved_codes_map l) as [f [Hf Hid]].
  pose proof (group_keys_NoDup str_cmp str_cmp_eq str_cmp_antisym
                str_cmp_trans (resolved_codes l)) as Hnd.
  split; [|split].
  - rewrite <- (length_map f (unique (states l))).
    apply NoDup_incl_length; [exact Hnd|].
    intros x Hx. apply (proj1 (group_keys_In str_cmp str_cmp_eq _ _)) in Hx.
    rewrite Hf in Hx. apply in_map_iff in Hx.
    destruct Hx as [s [<- Hs]]. apply in_map, unique_In. exact Hs.
  - eapply Nat.le_trans; [apply unique_length|].
    rewrite states_length. apply kept_rows_length.
  - intros Hform. apply Permutation_length.
    apply NoDup_Permutation; [exact Hnd | apply unique_NoDup|].
    intros x. rewrite (group_keys_In str_cmp str_cmp_eq), unique_In, Hf.
    rewrite (map_ext f (fun s => s) (Hid Hform)), map_id. reflexivity.
Qed.

(** ** Totals of the top states *)

Lemma sum_counts_perm (l1 l2 : list nat) :
  Permutation l1 l2 -> sum_counts l1 = sum_counts l2.
Proof.
  unfold sum_counts. induction 1; simpl; lia.
Qed.

Lemma sum_counts_firstn (n : nat) (l : list nat) :
  sum_counts (firstn n l) <= sum_counts l.
Proof.
  unfold sum_counts. revert n. induction l as [|x l IH]; intros [|n]; simpl;
    try lia.
  specialize (IH n). lia.
Qed.

Lemma code_state_pairs_length (l : list Provider) :
  List.length (code_state_pairs l) = List.length (kept_rows l).
Proof.
  unfold code_state_pairs.
  rewrite length_combine, resolved_codes_length, states_length.
  apply Nat.min_id.
Qed.

(** (X15) The top-states listing has at most ten rows. Its counts never
    add up to more than the number of filtered rows, and they add up to
    the number of filtered rows that have a state when there are at most
    ten groups of resolved code and state: the listing then leaves out
    no provider but those with a blank state cell. *)
Theorem top_states_total (l : list Provider) :
  starts_with_state l = true ->
  exists processed_df top,
    standardize_state_codes (frame l) = Ok processed_df
    /\ top_states processed_df = Ok top
    /\ List.length top <= 10
    /\ sum_counts (map ts_Count top) <= List.length (filter has_state l)
    /\ sum_counts (map ts_Count top) <= List.length l
    /\ (List.length (group_keys pair_cmp (code_state_pairs l)) <= 10 ->
        sum_counts (map ts_Count top) = List.length (filter has_state l)).
Proof.
  intros Hst. eexists. eexists.
  split; [now apply standardize_state_codes_rows|].
  split; [apply top_states_grouped|].
  set (rows := map (fun kn : string * string * nat =>
                      mkTopState (fst (fst kn)) (snd (fst kn)) (snd kn)
                        (dict_getd state_code_to_name (fst (fst kn))
                           (fst (fst kn))))
                   (groupby_size pair_cmp (code_state_pairs l))).
  assert (Hsum : sum_counts (map ts_Count (sort_values_desc ts_Count rows))
                 = List.length (kept_rows l)).
  { rewrite (sum_counts_perm _ (map ts_Count rows))
      by (apply Permutation_map, sort_values_desc_perm).
    unfold rows. rewrite map_map. cbn [ts_Count].
    rewrite <- (map_map snd (fun n => n)), map_id.
    rewrite (groupby_size_total pair_cmp pair_cmp_eq pair_cmp_antisym
               pair_cmp_trans).
    apply code_state_pairs_length. }
  assert (Hle : sum_counts
                  (map ts_Count (firstn 10 (sort_values_desc ts_Count rows)))
                <= List.length (kept_rows l)).
  { rewrite <- Hsum, <- firstn_map. apply sum_counts_firstn. }
  split; [rewrite length_firstn; apply Nat.le_min_l|].
  split; [exact Hle|].
  split; [eapply Nat.le_trans; [exact Hle | apply kept_rows_length]|].
  intros Hten. rewrite firstn_all2; [exact Hsum|].
  rewrite (Permutation_length (sort_values_desc_perm ts_Count rows)).
  unfold rows, groupby_size. now rewrite !length_map.
Qed.

(** ** Statistics of one row *)

(** (X16) On a table of a single row whose usage time is a number, the
    statistics table shows that usage time as median, minimum and
    maximum, and ["nan"] as standard deviation: the sample standard
    deviation has no value on fewer than two rows. *)
Theorem single_row_statistics (df : DataFrame) (p : Provider) :
  records df = [p] ->
  is_nan (UsageTime p) = false ->
  dict_get (stats_df df) "Median" = Some (format_f 2 (UsageTime p))
  /\ dict_get (stats_df df) "Minimum" = Some (format_f 2 (UsageTime p))
  /\ dict_get (stats_df df) "Maximum" = Some (format_f 2 (UsageTime p))
  /\ dict_get (stats_df df) "Standard Deviation" = Some "nan".
Proof.
  intros Hrec Hnan. unfold stats_df, usage_time. rewrite Hrec.
  cbn [map dict_get String.eqb Ascii.eqb Bool.eqb].
  assert (Hd : dropna [UsageTime p] = [UsageTime p]).
  { unfold dropna. cbn [filter]. now rewrite Hnan. }
  unfold median, fmin, fmax, std, variance. rewrite Hd.
  repeat split.
Qed.

(** ** Tables that mix codes and names *)

(** The place of a row in the normalizer's output: the number of rows
    with a state before it. *)
Lemma kept_row_state (l : list Provider) (i : nat) (p : Provider)
    (s : string) :
  nth_error l i = Some p -> State p = Text s ->
  nth_error (kept_rows l) (List.length (kept_rows (firstn i l))) = Some p
  /\ nth_error (states l) (List.length (kept_rows (firstn i l))) = Some s.
Proof.
  intros Hp Hs. revert i Hp.
  induction l as [|q t IH]; intros [|i] Hp; try discriminate.
  - injection Hp as ->. unfold kept_rows, states, has_state.
    cbn [firstn filter map texts List.length]. rewrite Hs.
    cbn [is_text nth_error]. split; reflexivity.
  - cbn [nth_error] in Hp. destruct (IH i Hp) as [H1 H2].
    unfold kept_rows, states, has_state in *.
    cbn [firstn filter map texts]. destruct (State q);
      cbn [is_text List.length nth_error]; split; assumption.
Qed.

Lemma no_blank_before (l : list Provider) (i : nat) (p : Provider) :
  nth_error l i = Some p ->
  (forall q, In q l -> State q <> NaN) ->
  List.length (kept_rows (firstn i l)) = i.
Proof.
  intros Hp Hall. rewrite kept_rows_all.
  - rewrite length_firstn. apply Nat.min_l, Nat.lt_le_incl.
    apply nth_error_Some. now rewrite Hp.
  - intros q Hq.
    assert (Hin : In q l).
    { rewrite <- (firstn_skipn i l). apply in_or_app. now left. }
    specialize (Hall q Hin).
    unfold has_state. destruct (State q); [reflexivity | contradiction].
Qed.

(** (X17) The form is decided by the first row alone. In a table whose
    first state has at most two characters, a row that gives its state by
    full name is kept with the name as its code, and its resolved region
    is ["Unknown"]. The row keeps its place but for the rows with a blank
    state cell before it, which the output does not have. *)
Theorem code_form_leaves_names_unresolved (l : list Provider) (i : nat)
    (p : Provider) (s : string) :
  starts_with_state l = true ->
  name_form l = false ->
  nth_error l i = Some p ->
  State p = Text s ->
  In s (keys state_name_to_code) ->
  let j := List.length (filter has_state (firstn i l)) in
  exists out code region,
    standardize_state_codes (frame l) = Ok out
    /\ getitem out "StateCode" = Ok code
    /\ getitem out "MappedRegion" = Ok region
    /\ nth_error (records out) j = Some p
    /\ nth_error code j = Some (State p)
    /\ nth_error region j = Some (Text "Unknown")
    /\ ((forall q, In q l -> State q <> NaN) -> j = i).
Proof.
  intros Hst Hform Hp Hs Hname j.
  destruct (kept_row_state l i p s Hp Hs) as [Hj Hsj].
  change (List.length (kept_rows (firstn i l))) with j in Hj, Hsj.
  exists (mkDataFrame (kept_rows l) (normalized_columns l)),
         (map Text (resolved_codes l)), (map Text (resolved_regions l)).
  split; [now apply standardize_state_codes_rows|].
  split; [apply normalized_StateCode|].
  split; [apply normalized_MappedRegion|].
  split; [exact Hj|].
  split; [|split; [|now apply (no_blank_before l i p)]].
  - unfold resolved_codes. rewrite Hform, nth_error_map, Hsj, Hs.
    reflexivity.
  - unfold resolved_regions, resolved_codes. rewrite Hform.
    rewrite !nth_error_map, Hsj. cbn [option_map].
    do 2 f_equal. now apply name_not_a_code.
Qed.

Lemma code_not_a_name (r : string) (members : list string) (c : string) :
  dict_get region_mapping r = Some members -> In c members ->
  dict_getd state_name_to_code c c = c.
Proof.
  intros Hget Hin. apply dict_get_In in Hget. vm_compute in Hget.
  repeat (destruct Hget as [Hget|Hget];
          [injection Hget as <- <-; vm_compute in Hin;
           repeat (destruct Hin as [Hin|Hin];
                   [subst c; vm_compute; reflexivity|]);
           contradiction|]).
  contradiction.
Qed.

(** (X18) In a table whose first state has more than two characters, a
    row that gives its state by a two-letter code of a region is still
    resolved: the name lookup falls back to the code itself, and the row
    gets the region of that code. The row keeps its place but for the
    rows with a blank state cell before it. *)
Theorem name_form_keeps_codes (l : list Provider) (i : nat) (p : Provider)
    (s r : string) (members : list string) :
  name_form l = true ->
  nth_error l i = Some p ->
  State p = Text s ->
  dict_get region_mapping r = Some members ->
  In s members ->
  let j := List.length (filter has_state (firstn i l)) in
  exists out code region,
    standardize_state_codes (frame l) = Ok out
    /\ getitem out "StateCode" = Ok code
    /\ getitem out "MappedRegion" = Ok region
    /\ nth_error (records out) j = Some p
    /\ nth_error code j = Some (State p)
    /\ nth_error region j = Some (Text r)
    /\ ((forall q, In q l -> State q <> NaN) -> j = i).
Proof.
  intros Hform Hp Hs Hget Hin j.
  assert (Hst : starts_with_state l = true).
  { unfold name_form in Hform. destruct l as [|q t]; [discriminate|].
    cbn [starts_with_state]. unfold has_state.
    destruct (State q); [reflexivity | discriminate]. }
  destruct (kept_row_state l i p s Hp Hs) as [Hj Hsj].
  change (List.length (kept_rows (firstn i l))) with j in Hj, Hsj.
  exists (mkDataFrame (kept_rows l) (normalized_columns l)),
         (map Text (resolved_codes l)), (map Text (resolved_regions l)).
  split; [now apply standardize_state_codes_rows|].
  split; [apply normalized_StateCode|].
  split; [apply normalized_MappedRegion|].
  split; [exact Hj|].
  split; [|split; [|now apply (no_blank_before l i p)]].
  - unfold resolved_codes. rewrite Hform, !nth_error_map, Hsj, Hs.
    cbn [option_map]. now rewrite (code_not_a_name r members s Hget Hin).
  - unfold resolved_regions, resolved_codes. rewrite Hform.
    rewrite !nth_error_map, Hsj. cbn [option_map].
    rewrite (code_not_a_name r members s Hget Hin).
    do 2 f_equal. now apply (get_region_member r members).
Qed.

End Pandas.

(** * Instances *)

(** The statements above hold for every sort that orders by the column.
    The instances below run the pipeline with the insertion sort; the
    counterexamples hold for every such sort. *)

(** ** Reference tables *)

Lemma name_code_name_roundtrip_witness :
  In "New York" (keys state_name_to_code)
  /\ exists code,
       dict_get state_name_to_code "New York" = Some code
       /\ dict_get state_code_to_name code = Some "New York".
Proof.
  assert (H : In "New York" (keys state_name_to_code)).
  { vm_compute. do 31 right. left. reflexivity. }
  split; [exact H | exact (proj2 name_code_name_roundtrip "New York" H)].
Defined.

Lemma get_region_complete_witness :
  get_region "TX" = "South" /\ regions_of "TX" = ["South"].
Proof.
  apply (get_region_complete "South"
           ["DE"; "MD"; "DC"; "VA"; "WV"; "NC"; "SC"; "GA"; "FL"; "KY";
            "TN"; "AL"; "MS"; "AR"; "LA"; "OK"; "TX"] "TX").
  - vm_compute. reflexivity.
  - vm_compute. do 16 right. left. reflexivity.
Defined.

Lemma name_resolves_to_region_witness :
  In "Texas" (keys state_name_to_code)
  /\ (get_region (dict_getd state_name_to_code "Texas" "Texas") = "Unknown"
      <-> "Texas" = "New Mexico").
Proof.
  assert (H : In "Texas" (keys state_name_to_code)).
  { vm_compute. do 42 right. left. reflexivity. }
  split; [exact H | exact (name_resolves_to_region "Texas" H)].
Defined.

(** ** State Normalizer *)

Lemma normalizer_removes_blank_rows_witness :
  starts_with_state blank_state_table = true
  /\ exists out,
       standardize_state_codes insertion_sort_desc (frame blank_state_table)
       = Ok out
       /\ map NPI (records out) = ["1234567890"; "3456789012"].
Proof.
  split; [reflexivity|].
  destruct (normalizer_removes_blank_rows insertion_sort_desc
              insertion_sort_desc_spec blank_state_table eq_refl)
    as [_ [out [Hout [Hrec _]]]].
  exists out. split; [exact Hout|]. rewrite Hrec. reflexivity.
Defined.

(** (C7, as claimed, fails) Of three rows, the second with a blank state
    cell, the normalizer returns two: the blank cell is no value of the
    allow-list, so the retention condition fails at that row. *)
Lemma blank_state_row_removed :
  List.length blank_state_table = 3
  /\ exists out,
       List.length (records out) = 2
       /\ map State (records out) = [Text "NY"; Text "CA"]
       /\ forall sort, sorts_descending sort ->
            standardize_state_codes sort (frame blank_state_table) = Ok out
            /\ mask_or
                 (isin (map State blank_state_table)
                       (valid_states_of sort blank_state_table))
                 (isin (map State blank_state_table)
                       (valid_states_of sort blank_state_table))
               = [true; false; true].
Proof.
  split; [reflexivity|].
  exists (mkDataFrame (kept_rows blank_state_table)
            (normalized_columns blank_state_table)).
  split; [reflexivity|]. split; [reflexivity|].
  intros sort Hsort.
  split; [now apply standardize_state_codes_rows|].
  pose proof (retention_mask_rows sort Hsort (fun x => x) blank_state_table
                eq_refl) as Hmask.
  rewrite map_id in Hmask. exact Hmask.
Qed.

Lemma normalizer_adds_columns_witness :
  sample_data <> []
  /\ (exists out,
        standardize_state_codes insertion_sort_desc (frame sample_data) = Ok out
        /\ getitem out "StateCode"
           = Ok [Text "NY"; Text "CA"; Text "TX"; Text "FL"; Text "IL"]
        /\ getitem out "MappedRegion"
           = Ok [Text "Northeast"; Text "West"; Text "South"; Text "South";
                 Text "Midwest"])
  /\ standardize_state_codes insertion_sort_desc (frame blank_first_table)
     = Raise TypeError.
Proof.
  assert (H : sample_data <> []) by discriminate.
  split; [exact H|]. split.
  - destruct (normalizer_adds_columns insertion_sort_desc
                insertion_sort_desc_spec sample_data H) as [Hok _].
    destruct (Hok eq_refl) as [out [Hout [_ [_ [Hcode [Hregion _]]]]]].
    exists out. split; [exact Hout|]. split; [exact Hcode | exact Hregion].
  - apply (normalizer_adds_columns insertion_sort_desc
             insertion_sort_desc_spec blank_first_table);
      [discriminate | reflexivity].
Defined.

(** (C4, as claimed, fails) In the full-name form the output has no
    display name column. *)
Lemma name_form_has_no_StateName :
  exists out,
    columns out = base_columns ++ ["StateCode"; "MappedRegion"]
    /\ ~ In "StateName" (columns out)
    /\ getitem out "StateName" = Raise (KeyError "StateName")
    /\ forall sort, sorts_descending sort ->
         standardize_state_codes sort (frame name_form_table) = Ok out.
Proof.
  exists (mkDataFrame (kept_rows name_form_table)
            (normalized_columns name_form_table)).
  split; [reflexivity|]. split; [cbn; intuition discriminate|].
  split; [reflexivity|].
  intros sort Hsort. now apply standardize_state_codes_rows.
Qed.

Lemma resolved_region_consistent_witness :
  exists members s,
    dict_get region_mapping "Northeast" = Some members
    /\ Text "NY" = Text s /\ In s members.
Proof.
  apply (resolved_region_consistent insertion_sort_desc
           insertion_sort_desc_spec sample_data
           (mkDataFrame (kept_rows sample_data)
              (normalized_columns sample_data))
           [Text "NY"; Text "CA"; Text "TX"; Text "FL"; Text "IL"]
           [Text "Northeast"; Text "West"; Text "South"; Text "South";
            Text "Midwest"] 0 (Text "NY") "Northeast");
    first [ discriminate | vm_compute; reflexivity ].
Defined.

Lemma code_form_leaves_names_unresolved_witness :
  exists out code region,
    standardize_state_codes insertion_sort_desc (frame code_then_name_table)
    = Ok out
    /\ getitem out "StateCode" = Ok code
    /\ getitem out "MappedRegion" = Ok region
    /\ nth_error code 1 = Some (Text "New York")
    /\ nth_error region 1 = Some (Text "Unknown").
Proof.
  destruct (code_form_leaves_names_unresolved insertion_sort_desc
              insertion_sort_desc_spec code_then_name_table 1
              (mkProvider "2345678901" "Cardiology" "New York" "Northeast"
                 32.7) "New York")
    as [out [code [region [H1 [H2 [H3 [_ [H4 [H5 _]]]]]]]]].
  - reflexivity.
  - reflexivity.
  - reflexivity.
  - reflexivity.
  - vm_compute. do 31 right. left. reflexivity.
  - exists out, code, region.
    split; [exact H1|]. split; [exact H2|]. split; [exact H3|].
    split; [exact H4 | exact H5].
Defined.

Lemma name_form_keeps_codes_witness :
  exists out code region,
    standardize_state_codes insertion_sort_desc (frame mixed_table) = Ok out
    /\ getitem out "StateCode" = Ok code
    /\ getitem out "MappedRegion" = Ok region
    /\ nth_error code 1 = Some (Text "NY")
    /\ nth_error region 1 = Some (Text "Northeast").
Proof.
  destruct (name_form_keeps_codes insertion_sort_desc
              insertion_sort_desc_spec mixed_table 1
              (mkProvider "2345678901" "Cardiology" "NY" "Northeast" 32.7)
              "NY" "Northeast"
              ["ME"; "NH"; "VT"; "MA"; "RI"; "CT"; "NY"; "NJ"; "PA"])
    as [out [code [region [H1 [H2 [H3 [_ [H4 [H5 _]]]]]]]]].
  - reflexivity.
  - reflexivity.
  - reflexivity.
  - vm_compute. reflexivity.
  - vm_compute. do 6 right. left. reflexivity.
  - exists out, code, region.
    split; [exact H1|]. split; [exact H2|]. split; [exact H3|].
    split; [exact H4 | exact H5].
Defined.

(** ** Filter Stage and exports *)

Lemma empty_filter_result_raises_witness :
  exists page,
    dashboard insertion_sort_desc sample_data "Cardiology" "West" = Some page
    /\ records (page_filtered_df page) = []
    /\ page_aggregates page = Raise (KeyError "StateCode").
Proof.
  eexists. split; [vm_compute; reflexivity|]. split; [reflexivity|].
  refine (proj2 (empty_filter_result_raises insertion_sort_desc sample_data
                   "Cardiology" "West" _ _ _)).
  - vm_compute. reflexivity.
  - reflexivity.
Defined.

Lemma exports_hold_filtered_table_witness :
  exists page,
    dashboard insertion_sort_desc sample_data "Cardiology" "All Regions"
    = Some page
    /\ header (page_csv_data page) = base_columns
    /\ body (page_csv_data page)
       = [ [Str "1234567890"; Str "Cardiology"; Str "NY"; Str "Northeast";
            Num 45.2];
           [Str "4567890123"; Str "Cardiology"; Str "FL"; Str "South";
            Num 41.5] ].
Proof.
  eexists. split; [vm_compute; reflexivity|].
  match goal with
  | |- header (page_csv_data ?pg) = _ /\ _ =>
      destruct (exports_hold_filtered_table insertion_sort_desc sample_data
                  "Cardiology" "All Regions" pg)
        as [_ [_ [Hh [Hb _]]]]; [vm_compute; reflexivity|]
  end.
  split; [exact Hh | exact Hb].
Defined.

(** (C5, as claimed, fails) On [sample_data] and Cardiology the CSV
    download differs from the filtered and normalized table, which has
    three more columns. *)
Lemma csv_is_not_normalized_table :
  exists processed,
    header (to_table processed)
    = base_columns ++ ["StateCode"; "StateName"; "MappedRegion"]
    /\ forall sort, sorts_descending sort ->
         exists page,
           dashboard sort sample_data "Cardiology" "All Regions" = Some page
           /\ standardize_state_codes sort (page_filtered_df page)
              = Ok processed
           /\ header (page_csv_data page) = base_columns
           /\ page_csv_data page <> to_table processed.
Proof.
  set (rows := filter (matches "Cardiology" None) sample_data).
  exists (mkDataFrame (kept_rows rows) (normalized_columns rows)).
  split; [reflexivity|].
  intros sort Hsort.
  destruct (dashboard_page sort sample_data "Cardiology" "All Regions")
    as [page [Hpage Hf]]; [discriminate|].
  change (choose_region "All Regions") with (@None string) in Hf.
  fold rows in Hf.
  destruct (dashboard_exports sort _ _ _ _ Hpage) as [Hcsv _].
  exists page. split; [exact Hpage|].
  rewrite Hcsv, Hf.
  split; [now apply standardize_state_codes_rows|].
  split; [reflexivity|].
  intros H. apply (f_equal header) in H. discriminate H.
Qed.

Lemma no_region_keeps_specialty_rows_witness :
  exists page,
    dashboard insertion_sort_desc mismatch_table "Cardiology" "All Regions"
    = Some page
    /\ map State (records (page_filtered_df page))
       = [Text "NY"; Text "CA"; Text "TX"].
Proof.
  destruct (no_region_keeps_specialty_rows insertion_sort_desc mismatch_table
              "Cardiology" "All Regions") as [page [Hpage [Hrec _]]].
  - discriminate.
  - left. reflexivity.
  - exists page. split; [exact Hpage|]. rewrite Hrec. reflexivity.
Defined.

Lemma region_filter_raw_charts_by_selection_witness :
  exists page aggs rs,
    dashboard insertion_sort_desc mismatch_table "Cardiology" "West"
    = Some page
    /\ map State (records (page_filtered_df page)) = [Text "NY"; Text "CA"]
    /\ page_aggregates page = Ok aggs
    /\ agg_regional_pie aggs = inr rs
    /\ map (fun x => (rs_StateCode x, rs_NPI_Count x)) rs
       = [("CA", 1); ("NY", 1)].
Proof.
  destruct (region_filter_raw_charts_by_selection insertion_sort_desc
              insertion_sort_desc_spec mismatch_table "Cardiology" "West")
    as [[page [Hpage [Hrec [_ Haggs]]]] _]; try discriminate.
  rewrite Hrec in Haggs.
  destruct (Haggs eq_refl) as [aggs [rs [us [Ha [Hpie [_ [Hrs _]]]]]]].
  exists page, aggs, rs. split; [exact Hpage|].
  split; [rewrite Hrec; reflexivity|].
  split; [exact Ha|]. split; [exact Hpie|].
  rewrite Hrs. vm_compute. reflexivity.
Defined.

(** (C8, as claimed, fails) With the region West chosen, the New York
    row whose uploaded region says West is kept, and the pie and the
    usage chart have one row per state code, CA and NY, not one per
    resolved region, Northeast and West. *)
Lemma region_chosen_charts_by_state :
  groupby_size str_cmp
    (resolved_regions
       (filter (matches "Cardiology" (Some "West")) mismatch_table))
  = [("Northeast", 1); ("West", 1)]
  /\ forall sort, sorts_descending sort ->
       exists page aggs rs us,
         dashboard sort mismatch_table "Cardiology" "West" = Some page
         /\ map State (records (page_filtered_df page))
            = [Text "NY"; Text "CA"]
         /\ page_aggregates page = Ok aggs
         /\ agg_regional_pie aggs = inr rs
         /\ map (fun x => (rs_StateCode x, rs_NPI_Count x)) rs
            = [("CA", 1); ("NY", 1)]
         /\ agg_usage_chart aggs = inr us
         /\ map us_StateCode us = ["CA"; "NY"].
Proof.
  split; [vm_compute; reflexivity|].
  intros sort Hsort.
  destruct (page_of_region sort Hsort mismatch_table "Cardiology" "West")
    as [page [Hpage [Hrec Haggs]]]; try discriminate.
  rewrite Hrec in Haggs.
  destruct (Haggs eq_refl) as [aggs [rs [us [Ha [Hpie [Hus [Hrs Hu]]]]]]].
  exists page, aggs, rs, us. split; [exact Hpage|].
  split; [rewrite Hrec; reflexivity|].
  split; [exact Ha|]. split; [exact Hpie|].
  split; [rewrite Hrs; vm_compute; reflexivity|].
  split; [exact Hus|].
  replace (map us_StateCode us)
    with (map fst (map (fun x => (us_StateCode x, us_UsageTime x)) us))
    by (rewrite map_map; reflexivity).
  rewrite Hu, map_map. vm_compute. reflexivity.
Qed.

(** ** The page on a table with rows *)

Lemma aggregates_computed_on_rows_witness :
  exists page aggs,
    dashboard insertion_sort_desc sample_data "Cardiology" "South" = Some page
    /\ map State (records (page_filtered_df page)) = [Text "FL"]
    /\ page_aggregates page = Ok aggs.
Proof.
  assert (Hpage : exists page,
             dashboard insertion_sort_desc sample_data "Cardiology" "South"
             = Some page
             /\ records (page_filtered_df page)
                = [mkProvider "4567890123" "Cardiology" "FL" "South" 41.5]).
  { eexists. split; [vm_compute; reflexivity | reflexivity]. }
  destruct Hpage as [page [Hpage Hrec]].
  destruct (aggregates_computed_on_rows insertion_sort_desc
              insertion_sort_desc_spec sample_data "Cardiology" "South"
              page Hpage) as [Hok _].
  - rewrite Hrec. discriminate.
  - rewrite Hrec in Hok.
    destruct (Hok eq_refl) as [pr [aggs [_ [_ [_ Haggs]]]]].
    exists page, aggs. split; [exact Hpage|].
    split; [rewrite Hrec; reflexivity | exact Haggs].
Defined.

Lemma offered_specialty_has_rows_witness :
  In "Oncology" (specialties (frame sample_data))
  /\ exists page,
       dashboard insertion_sort_desc sample_data "Oncology" "All Regions"
       = Some page
       /\ records (page_filtered_df page) <> [].
Proof.
  assert (H : In "Oncology" (specialties (frame sample_data))).
  { vm_compute. do 2 right. left. reflexivity. }
  split; [exact H|].
  destruct (offered_specialty_has_rows insertion_sort_desc
              insertion_sort_desc_spec sample_data "Oncology" H)
    as [page [Hpage [_ [Hne _]]]]; [discriminate|].
  exists page. split; assumption.
Defined.

(** ** Counts *)

Lemma state_counts_total_witness :
  starts_with_state blank_state_table = true
  /\ exists processed_df sc,
       standardize_state_codes insertion_sort_desc (frame blank_state_table)
       = Ok processed_df
       /\ state_counts processed_df None = Ok sc
       /\ sum_counts (map sc_NPI_Count sc) = 2.
Proof.
  split; [reflexivity|].
  destruct (state_counts_total insertion_sort_desc insertion_sort_desc_spec
              blank_state_table eq_refl)
    as [pr [sc [Hpr [Hsc [Hsum _]]]]].
  exists pr, sc. split; [exact Hpr|]. split; [exact Hsc | exact Hsum].
Defined.

Lemma state_counts_of_region_witness :
  exists processed_df sc,
    standardize_state_codes insertion_sort_desc (frame mismatch_table)
    = Ok processed_df
    /\ state_counts processed_df (Some "West") = Ok sc
    /\ forall s, In s sc -> sc_Region s = "West".
Proof.
  destruct (state_counts_of_region insertion_sort_desc
              insertion_sort_desc_spec mismatch_table "West")
    as [pr [sc [Hpr [Hsc [Hall _]]]]]; [reflexivity | discriminate |].
  exists pr, sc. split; [exact Hpr|]. split; [exact Hsc|].
  intros s Hs. now apply Hall.
Defined.


Lemma overview_bounds_state_counts_witness :
  starts_with_state mixed_table = true
  /\ exists processed_df sc,
       standardize_state_codes insertion_sort_desc (frame mixed_table)
       = Ok processed_df
       /\ state_counts processed_df None = Ok sc
       /\ List.length sc <= 2.
Proof.
  split; [reflexivity|].
  destruct (overview_bounds_state_counts insertion_sort_desc
              insertion_sort_desc_spec mixed_table eq_refl)
    as [pr [sc [Hpr [Hsc [_ [Hle _]]]]]].
  exists pr, sc. split; [exact Hpr|]. split; [exact Hsc | exact Hle].
Defined.

(** ** Top states *)

Lemma top_states_order_witness :
  starts_with_state tie_table = true
  /\ exists processed_df top,
       standardize_state_codes insertion_sort_desc (frame tie_table)
       = Ok processed_df
       /\ top_states insertion_sort_desc processed_df = Ok top
       /\ List.length top = 2.
Proof.
  split; [reflexivity|].
  destruct (top_states_order insertion_sort_desc insertion_sort_desc_spec
              tie_table eq_refl)
    as [pr [top [rest [Hpr [Htop [Hlen _]]]]]].
  exists pr, top. split; [exact Hpr|]. split; [exact Htop|].
  rewrite Hlen. vm_compute. reflexivity.
Defined.

(** (C2, as claimed, fails) New York and California have one provider
    each. In [tie_table] New York is seen first, in the reversed table
    California is. Both tables have the same grouped table, so every
    sort gives both the same listing: it cannot be in the order of first
    appearance for both. *)
Lemma top_states_ties_not_first_seen :
  top_states_first_seen (resolved_codes tie_table) = [("NY", 1); ("CA", 1)]
  /\ top_states_first_seen (resolved_codes (rev tie_table))
     = [("CA", 1); ("NY", 1)]
  /\ forall sort, sorts_descending sort ->
       exists processed1 processed2 top,
         standardize_state_codes sort (frame tie_table) = Ok processed1
         /\ standardize_state_codes sort (frame (rev tie_table))
            = Ok processed2
         /\ top_states sort processed1 = Ok top
         /\ top_states sort processed2 = Ok top
         /\ ~ (map (fun r => (ts_StateCode r, ts_Count r)) top
               = top_states_first_seen (resolved_codes tie_table)
               /\ map (fun r => (ts_StateCode r, ts_Count r)) top
                  = top_states_first_seen (resolved_codes (rev tie_table))).
Proof.
  assert (H1 : top_states_first_seen (resolved_codes tie_table)
               = [("NY", 1); ("CA", 1)]) by (vm_compute; reflexivity).
  assert (H2 : top_states_first_seen (resolved_codes (rev tie_table))
               = [("CA", 1); ("NY", 1)]) by (vm_compute; reflexivity).
  split; [exact H1|]. split; [exact H2|].
  intros sort Hsort. eexists _, _, _.
  split; [now apply standardize_state_codes_rows|].
  split; [now apply standardize_state_codes_rows|].
  split; [apply top_states_grouped|].
  split.
  { rewrite (top_states_forget_row_order sort (rev tie_table) tie_table);
      [apply top_states_grouped | vm_compute; apply perm_swap]. }
  rewrite H1, H2. intros [E1 E2]. rewrite E1 in E2. discriminate E2.
Qed.

Lemma top_states_total_witness :
  starts_with_state sample_data = true
  /\ exists processed_df top,
       standardize_state_codes insertion_sort_desc (frame sample_data)
       = Ok processed_df
       /\ top_states insertion_sort_desc processed_df = Ok top
       /\ sum_counts (map ts_Count top) = 5.
Proof.
  split; [reflexivity|].
  destruct (top_states_total insertion_sort_desc insertion_sort_desc_spec
              sample_data eq_refl)
    as [pr [top [Hpr [Htop [_ [_ [_ Hsum]]]]]]].
  exists pr, top. split; [exact Hpr|]. split; [exact Htop|].
  apply Hsum. vm_compute. repeat constructor.
Defined.

(** ** Statistics *)

Lemma single_row_statistics_witness :
  dict_get (stats_df (frame name_form_table)) "Median" = Some "45.20"
  /\ dict_get (stats_df (frame name_form_table)) "Standard Deviation"
     = Some "nan".
Proof.
  destruct (single_row_statistics (frame name_form_table)
              (mkProvider "1234567890" "Cardiology" "New York" "Northeast"
                 45.2) eq_refl eq_refl) as [Hmed [_ [_ Hstd]]].
  split; [|exact Hstd].
  rewrite Hmed. vm_compute. reflexivity.
Defined.
